(** * FL Studio MIDI controller script: a shallow embedding

    Source: [src/fl_studio_automation/fl_studio_midi_controller.py].

    The script is a set of host callbacks ([OnMidiIn] and the handlers it
    dispatches to) that mutate one global [AutomationState] and call into
    the host's modules ([transport], [patterns], [channels], [mixer],
    [ui]).  The embedding keeps that shape:

    - Python [int] is [Z]; Python [float] is a binary64 primitive float and
      every float operation of the source is the corresponding IEEE
      operation;
    - [dict] is a [gmap], [set] is a [gset];
    - the host modules are an oracle ([Surface]) that answers each call,
      given the calls made so far, with a value or an exception;
    - a handler is a computation in the monad [M], which threads the global
      state, records the calls issued and the lines logged, and either
      returns or raises. *)

From Stdlib Require Import ZArith List Bool Floats Lia.
From stdpp Require Import base gmap sets.

Open Scope Z_scope.

(** ** Python numbers *)

Module Py.

(** [float(z)]: the correctly rounded binary64 value of an integer. *)
Definition float_of_Z (z : Z) : float :=
  SF2Prim (binary_normalize prec emax z 0 false).

(** A field that holds an [int] at first and a [float] later
    ([tempo_last] starts as [120]). *)
Inductive num :=
| Int (z : Z)
| Float (f : float).

(** The two kinds of exception the script's handlers tell apart:
    [except Exception] catches [Exception] and its subclasses only, a
    bare [except:] also catches what derives from [BaseException] alone
    ([SystemExit], [KeyboardInterrupt]). *)
Inductive exc :=
| Exception
| BaseException.

End Py.

(** ** Configuration constants *)

Definition DEBUG : bool := true.

Definition MIDI_CC_MASTER_VOLUME : Z := 1.
Definition MIDI_CC_TRACK_VOLUME : Z := 2.
Definition MIDI_CC_PAN : Z := 3.
Definition MIDI_CC_TEMPO : Z := 4.
Definition MIDI_NOTE_PLAY : Z := 60.
Definition MIDI_NOTE_STOP : Z := 61.
Definition MIDI_NOTE_RECORD : Z := 62.

Definition PATTERN_NOTE_START : Z := 36.
Definition PATTERN_NOTE_END : Z := 51.

(** ** State *)

Record AutomationState := mkState {
  last_mixer_values : gmap Z float;
  last_channel_values : gmap Z float;
  recording_enabled : bool;
  automation_enabled : bool;
  tempo_last : Py.num;
  active_patterns : gset Z
}.

(** [AutomationState.__init__] *)
Definition init_state : AutomationState :=
  {| last_mixer_values := ∅;
     last_channel_values := ∅;
     recording_enabled := false;
     automation_enabled := true;
     tempo_last := Py.Int 120;
     active_patterns := ∅ |}.

(** [AutomationState.reset] *)
Definition reset (s : AutomationState) : AutomationState :=
  {| last_mixer_values := ∅;
     last_channel_values := ∅;
     recording_enabled := false;
     automation_enabled := automation_enabled s;
     tempo_last := tempo_last s;
     active_patterns := ∅ |}.

(** The assignments the handlers make to fields of [state]. *)

(** [state.active_patterns.add(i)] *)
Definition active_patterns_add (i : Z) (s : AutomationState) : AutomationState :=
  {| last_mixer_values := last_mixer_values s;
     last_channel_values := last_channel_values s;
     recording_enabled := recording_enabled s;
     automation_enabled := automation_enabled s;
     tempo_last := tempo_last s;
     active_patterns := {[ i ]} ∪ active_patterns s |}.

(** [state.active_patterns.discard(i)] *)
Definition active_patterns_discard (i : Z) (s : AutomationState) : AutomationState :=
  {| last_mixer_values := last_mixer_values s;
     last_channel_values := last_channel_values s;
     recording_enabled := recording_enabled s;
     automation_enabled := automation_enabled s;
     tempo_last := tempo_last s;
     active_patterns := active_patterns s ∖ {[ i ]} |}.

(** [state.last_mixer_values[track] = v] *)
Definition last_mixer_values_set (track : Z) (v : float) (s : AutomationState)
  : AutomationState :=
  {| last_mixer_values := <[ track := v ]> (last_mixer_values s);
     last_channel_values := last_channel_values s;
     recording_enabled := recording_enabled s;
     automation_enabled := automation_enabled s;
     tempo_last := tempo_last s;
     active_patterns := active_patterns s |}.

(** [state.tempo_last = t] *)
Definition tempo_last_set (t : float) (s : AutomationState) : AutomationState :=
  {| last_mixer_values := last_mixer_values s;
     last_channel_values := last_channel_values s;
     recording_enabled := recording_enabled s;
     automation_enabled := automation_enabled s;
     tempo_last := Py.Float t;
     active_patterns := active_patterns s |}.

(** [state.automation_enabled = b] *)
Definition automation_enabled_set (b : bool) (s : AutomationState) : AutomationState :=
  {| last_mixer_values := last_mixer_values s;
     last_channel_values := last_channel_values s;
     recording_enabled := recording_enabled s;
     automation_enabled := b;
     tempo_last := tempo_last s;
     active_patterns := active_patterns s |}.

(** ** The host modules *)

(** The calls the handlers make into the host. [SetCurrentPattern i] is the
    assignment [patterns.currentPattern = i]; [SetHintMsg t] is
    [ui.setHintMsg(f"Tempo: {t:.1f} BPM")], kept with the number it
    formats. *)
Inductive ExtCall :=
| TransportStart
| TransportStop
| TransportGetPos (mode : Z)
| PatternCount
| SetCurrentPattern (index : Z)
| ChannelCount
| SetChannelVolume (index : Z) (volume : float)
| SelectedTrack
| SetTrackVolume (track : Z) (volume : float)
| SetTrackPan (track : Z) (pan : float)
| SetHintMsg (tempo : float).

(** What a call does: it returns (an [int]; setters return a value nobody
    looks at) or it raises. *)
Inductive Outcome :=
| Returns (v : Z)
| Raises (e : Py.exc).

(** The host: the answer to a call may depend on every call made before
    it (the most recent one first). *)
Definition Surface : Type := list ExtCall -> ExtCall -> Outcome.

(** The calls made so far, after some more were issued. *)
Definition extend (hist : list ExtCall) (new : list (ExtCall * Outcome))
  : list ExtCall :=
  fold_left (fun h c => fst c :: h) new hist.

(** ** The log *)

(** One constructor per [state.debug_log(f"...")] of the source, holding
    the values the f-string interpolates (the text of a caught exception
    is left out). *)
Inductive LogMsg :=
| LMidiIn (status data1 data2 : Z)
| LNoteOn (note velocity : Z)
| LPlay
| LStop
| LRecordToggle
| LPatternTriggered (pattern_index : Z)
| LPatternFailed (pattern_index : Z)
| LChannelVolume (channel_index : Z) (volume : float)
| LNoteOff (note : Z)
| LCC (cc_number cc_value : Z) (normalized : float)
| LMasterVolume (normalized : float)
| LErrMasterVolume
| LTrackVolume (track : Z) (normalized : float)
| LErrTrackVolume
| LTrackPan (track : Z) (pan_value : float)
| LErrPan
| LTempo (tempo : float)
| LErrTempo
| LTrackVolumeCC7 (track : Z) (normalized : float)
| LErrVolume
| LTrackPanCC10 (track : Z) (pan_value : float)
| LAutomation (enabled : bool)
| LProgramChange (program : Z)
| LSwitchedPattern (program : Z)
| LErrProgramChange
| LDeinit.

(** ** The monad of handlers *)

Inductive Completion (A : Type) :=
| Normal (a : A)
| Raised (e : Py.exc).
Arguments Normal {A} a.
Arguments Raised {A} e.

(** The result of running a piece of handler code: the state it leaves,
    the calls it issued with their outcomes, the lines it logged (both in
    order), and how it ended. *)
Record Run (A : Type) := mkRun {
  final : AutomationState;
  issued : list (ExtCall * Outcome);
  logged : list LogMsg;
  completion : Completion A
}.
Arguments mkRun {A}.
Arguments final {A}.
Arguments issued {A}.
Arguments logged {A}.
Arguments completion {A}.

(** A computation reads the host, the calls made before it started and the
    global state. *)
Definition M (A : Type) : Type :=
  Surface -> list ExtCall -> AutomationState -> Run A.

Definition ret {A} (a : A) : M A :=
  fun _ _ s => mkRun s [] [] (Normal a).

Definition bind {A B} (m : M A) (k : A -> M B) : M B :=
  fun surf hist s =>
    let r := m surf hist s in
    match completion r with
    | Normal a =>
        let r' := k a surf (extend hist (issued r)) (final r) in
        mkRun (final r') (issued r ++ issued r') (logged r ++ logged r')
              (completion r')
    | Raised e => mkRun (final r) (issued r) (logged r) (Raised e)
    end.

Notation "'let!' x := m 'in' k" := (bind m (fun x => k))
  (at level 10, x name, m at level 100, k at level 200).
Notation "'do' m ;; k" := (bind m (fun _ => k))
  (at level 10, m at level 99, k at level 200).

(** A call into the host. *)
Definition call (c : ExtCall) : M Z :=
  fun surf hist s =>
    match surf hist c with
    | Returns v => mkRun s [(c, Returns v)] [] (Normal v)
    | Raises e => mkRun s [(c, Raises e)] [] (Raised e)
    end.

(** [AutomationState.debug_log] *)
Definition debug_log (message : LogMsg) : M unit :=
  fun _ _ s => mkRun s [] (if DEBUG then [message] else []) (Normal tt).

(** An assignment to a field of the global [state]. *)
Definition modify (f : AutomationState -> AutomationState) : M unit :=
  fun _ _ s => mkRun (f s) [] [] (Normal tt).

(** A read of the global [state]. *)
Definition get_state : M AutomationState :=
  fun _ _ s => mkRun s [] [] (Normal s).

(** [try: body  except Exception as e: handler] *)
Definition try_except_Exception (body handler : M unit) : M unit :=
  fun surf hist s =>
    let r := body surf hist s in
    match completion r with
    | Normal _ => r
    | Raised Py.Exception =>
        let r' := handler surf (extend hist (issued r)) (final r) in
        mkRun (final r') (issued r ++ issued r') (logged r ++ logged r')
              (completion r')
    | Raised Py.BaseException => r
    end.

(** [try: body  except: handler] *)
Definition try_except (body handler : M unit) : M unit :=
  fun surf hist s =>
    let r := body surf hist s in
    match completion r with
    | Normal _ => r
    | Raised _ =>
        let r' := handler surf (extend hist (issued r)) (final r) in
        mkRun (final r') (issued r ++ issued r') (logged r ++ logged r')
              (completion r')
    end.

(** ** The callbacks *)

(** The [event] object handed to [OnMidiIn]. *)
Record Event := mkEvent {
  status : Z;
  data1 : Z;
  data2 : Z
}.

(** [cc_value / 127.0], and [velocity / 127.0] *)
Definition div127 (v : Z) : float :=
  (Py.float_of_Z v / 127)%float.

Arguments Py.float_of_Z : simpl never.
Arguments div127 : simpl never.

Definition HandleNoteOn (note velocity : Z) : M unit :=
  do debug_log (LNoteOn note velocity) ;;
  if note =? MIDI_NOTE_PLAY then
    do debug_log LPlay ;;
    let! _ := call TransportStart in
    ret tt
  else if note =? MIDI_NOTE_STOP then
    do debug_log LStop ;;
    let! _ := call TransportStop in
    ret tt
  else if note =? MIDI_NOTE_RECORD then
    do debug_log LRecordToggle ;;
    let! current_pos := call (TransportGetPos 0) in
    let! _ := call TransportStart in
    ret tt
  else if (PATTERN_NOTE_START <=? note) && (note <=? PATTERN_NOTE_END) then
    let pattern_index := note - PATTERN_NOTE_START in
    do modify (active_patterns_add pattern_index) ;;
    do debug_log (LPatternTriggered pattern_index) ;;
    try_except
      (let! count := call PatternCount in
       if pattern_index <? count then
         let! _ := call (SetCurrentPattern pattern_index) in
         ret tt
       else ret tt)
      (debug_log (LPatternFailed pattern_index))
  else if (64 <=? note) && (note <=? 79) then
    let channel_index := note - 64 in
    let volume := div127 velocity in
    let! count := call ChannelCount in
    if channel_index <? count then
      let! _ := call (SetChannelVolume channel_index volume) in
      debug_log (LChannelVolume channel_index volume)
    else ret tt
  else ret tt.

Definition HandleNoteOff (note : Z) : M unit :=
  do debug_log (LNoteOff note) ;;
  if (PATTERN_NOTE_START <=? note) && (note <=? PATTERN_NOTE_END) then
    let pattern_index := note - PATTERN_NOTE_START in
    modify (active_patterns_discard pattern_index)
  else ret tt.

Definition HandleControlChange (cc_number cc_value : Z) : M unit :=
  let normalized := div127 cc_value in
  do debug_log (LCC cc_number cc_value normalized) ;;
  if cc_number =? MIDI_CC_MASTER_VOLUME then
    try_except_Exception
      (let! _ := call (SetTrackVolume 0 normalized) in
       do modify (last_mixer_values_set 0 normalized) ;;
       debug_log (LMasterVolume normalized))
      (debug_log LErrMasterVolume)
  else if cc_number =? MIDI_CC_TRACK_VOLUME then
    try_except_Exception
      (let! track := call SelectedTrack in
       if track >=? 0 then
         let! _ := call (SetTrackVolume track normalized) in
         do modify (last_mixer_values_set track normalized) ;;
         debug_log (LTrackVolume track normalized)
       else ret tt)
      (debug_log LErrTrackVolume)
  else if cc_number =? MIDI_CC_PAN then
    try_except_Exception
      (let pan_value := (normalized - 0.5)%float in
       let! track := call SelectedTrack in
       if track >=? 0 then
         let! _ := call (SetTrackPan track pan_value) in
         debug_log (LTrackPan track pan_value)
       else ret tt)
      (debug_log LErrPan)
  else if cc_number =? MIDI_CC_TEMPO then
    try_except_Exception
      (let tempo :=
         (Py.float_of_Z 20 + normalized * Py.float_of_Z 280)%float in
       let! _ := call (SetHintMsg tempo) in
       do modify (tempo_last_set tempo) ;;
       debug_log (LTempo tempo))
      (debug_log LErrTempo)
  else if cc_number =? 7 then
    try_except_Exception
      (let! track := call SelectedTrack in
       if track >=? 0 then
         let! _ := call (SetTrackVolume track normalized) in
         do modify (last_mixer_values_set track normalized) ;;
         debug_log (LTrackVolumeCC7 track normalized)
       else ret tt)
      (debug_log LErrVolume)
  else if cc_number =? 10 then
    try_except_Exception
      (let pan_value := (normalized - 0.5)%float in
       let! track := call SelectedTrack in
       if track >=? 0 then
         let! _ := call (SetTrackPan track pan_value) in
         debug_log (LTrackPanCC10 track pan_value)
       else ret tt)
      (debug_log LErrPan)
  else if cc_number =? 64 then
    do modify (automation_enabled_set (cc_value >=? 64)) ;;
    let! s := get_state in
    debug_log (LAutomation (automation_enabled s))
  else ret tt.

Definition HandleProgramChange (program : Z) : M unit :=
  do debug_log (LProgramChange program) ;;
  try_except_Exception
    (let! count := call PatternCount in
     if program <? count then
       let! _ := call (SetCurrentPattern program) in
       debug_log (LSwitchedPattern program)
     else ret tt)
    (debug_log LErrProgramChange).

Definition OnMidiIn (event : Event) : M unit :=
  do debug_log (LMidiIn (status event) (data1 event) (data2 event)) ;;
  if (status event =? 0x90) || (status event =? 0x80) then
    let is_note_on := (status event =? 0x90) && (data2 event >? 0) in
    let note_number := data1 event in
    if is_note_on then HandleNoteOn note_number (data2 event)
    else HandleNoteOff note_number
  else if status event =? 0xB0 then
    let cc_number := data1 event in
    let cc_value := data2 event in
    HandleControlChange cc_number cc_value
  else if status event =? 0xC0 then
    let program := data1 event in
    HandleProgramChange program
  else ret tt.

Definition OnDeinit : M unit :=
  do debug_log LDeinit ;;
  modify reset.

(** The message source: the host calls [OnMidiIn] once per message, in
    delivery order, on the state the previous call left; what a call
    raised is reported by the host and the next message is delivered all
    the same. *)
Record HostRun := mkHostRun {
  h_final : AutomationState;
  h_issued : list (ExtCall * Outcome);
  h_logged : list LogMsg;
  h_completions : list (Completion unit)
}.

Fixpoint deliver (events : list Event) (surf : Surface) (hist : list ExtCall)
  (s : AutomationState) : HostRun :=
  match events with
  | [] => mkHostRun s [] [] []
  | event :: rest =>
      let r := OnMidiIn event surf hist s in
      let h := deliver rest surf (extend hist (issued r)) (final r) in
      mkHostRun (h_final h) (issued r ++ h_issued h) (logged r ++ h_logged h)
                (completion r :: h_completions h)
  end.

(** ** Hosts used as concrete inputs *)

(** A host where every call succeeds: the three queries return the given
    numbers, every other call returns [0]. *)
Definition surface_ok (pattern_count channel_count selected : Z) : Surface :=
  fun _ c =>
    match c with
    | PatternCount => Returns pattern_count
    | ChannelCount => Returns channel_count
    | SelectedTrack => Returns selected
    | _ => Returns 0
    end.

(** A host that is unavailable: every call raises an ordinary exception. *)
Definition surface_down : Surface :=
  fun _ _ => Raises Py.Exception.

(** A host whose queries answer but whose setters all refuse (an index
    out of range, say): each raises an ordinary exception. *)
Definition surface_refusing (pattern_count channel_count selected : Z)
  : Surface :=
  fun _ c =>
    match c with
    | PatternCount => Returns pattern_count
    | ChannelCount => Returns channel_count
    | SelectedTrack => Returns selected
    | _ => Raises Py.Exception
    end.

(** ** The specification's readings, to be compared with the code *)

(** The typed events of the specification's data model. *)
Inductive MidiEvent :=
| NoteOn (note velocity : Z)
| NoteOff (note : Z)
| ControlChange (controller value : Z)
| ProgramChange (program : Z)
| Unknown.

(** The handler a typed event stands for; [Unknown] is inert. *)
Definition dispatch (e : MidiEvent) : M unit :=
  match e with
  | NoteOn note velocity => HandleNoteOn note velocity
  | NoteOff note => HandleNoteOff note
  | ControlChange controller value => HandleControlChange controller value
  | ProgramChange program => HandleProgramChange program
  | Unknown => ret tt
  end.

(** The decoder in the specification's words: classification by the high
    nibble of the status byte. *)
Definition decode_by_high_nibble (event : Event) : MidiEvent :=
  let nibble := Z.shiftr (status event) 4 in
  if nibble =? 0x8 then NoteOff (data1 event)
  else if nibble =? 0x9 then
    if data2 event =? 0 then NoteOff (data1 event)
    else NoteOn (data1 event) (data2 event)
  else if nibble =? 0xB then ControlChange (data1 event) (data2 event)
  else if nibble =? 0xC then ProgramChange (data1 event)
  else Unknown.

(** The classification that the [if]/[elif] chain of [OnMidiIn] makes,
    condition by condition as the source has them. *)
Definition classify (event : Event) : MidiEvent :=
  if (status event =? 0x90) || (status event =? 0x80) then
    if (status event =? 0x90) && (data2 event >? 0)
    then NoteOn (data1 event) (data2 event)
    else NoteOff (data1 event)
  else if status event =? 0xB0 then ControlChange (data1 event) (data2 event)
  else if status event =? 0xC0 then ProgramChange (data1 event)
  else Unknown.

(** [OnMidiIn] seen as "log the frame, then handle the event [decode]
    finds in it". *)
Definition decodes_with (decode : Event -> MidiEvent) (event : Event)
  (surf : Surface) (hist : list ExtCall) (s : AutomationState) : Prop :=
  OnMidiIn event surf hist s
  = (do debug_log (LMidiIn (status event) (data1 event) (data2 event)) ;;
     dispatch (decode event)) surf hist s.

(** What a run lets the host and the state see, the log aside. *)
Definition observable {A} (r : Run A)
  : AutomationState * list (ExtCall * Outcome) * Completion A :=
  (final r, issued r, completion r).

(** The claim as the specification words it: a program change always
    issues the pattern selection. *)
Definition program_change_always_selects : Prop :=
  forall (surf : Surface) (hist : list ExtCall) (s : AutomationState) (p : Z),
    0 <= p <= 127 ->
    In (SetCurrentPattern p)
       (map fst (issued (HandleProgramChange p surf hist s))).

(** Some call issued during a run was refused by the host. *)
Definition some_call_failed {A} (r : Run A) : Prop :=
  exists c e, In (c, Raises e) (issued r).

(** Some call issued during a run raised an ordinary exception. *)
Definition some_call_raised_Exception {A} (r : Run A) : Prop :=
  exists c, In (c, Raises Py.Exception) (issued r).

(** The log lines written by the [except] clauses. *)
Definition is_error_line (m : LogMsg) : bool :=
  match m with
  | LPatternFailed _ | LErrMasterVolume | LErrTrackVolume | LErrPan
  | LErrTempo | LErrVolume | LErrProgramChange => true
  | _ => false
  end.

(** The specification's rule for a failed action: an event during which
    the host refused a call leaves the whole state as it was. *)
Definition failure_leaves_state (event : Event) (surf : Surface)
  (hist : list ExtCall) (s : AutomationState) : Prop :=
  let r := OnMidiIn event surf hist s in
  some_call_failed r -> final r = s.

(** The values a MIDI data byte can take. *)
Definition seven_bit_values : list Z := map Z.of_nat (seq 0 128).

(** [lo <= x <= hi] on floats. *)
Definition in_range (lo hi x : float) : bool :=
  ((lo <=? x) && (x <=? hi))%float.

(** The tempo mapping in the specification's words:
    [20.0 + (value/127.0)*280.0]. *)
Definition tempo_hint (value : Z) : float :=
  (20 + (Py.float_of_Z value / 127) * 280)%float.

(** [f] is strictly increasing, respectively non-decreasing, along the
    integers of [l]. *)
Definition strictly_increasing_on (f : Z -> float) (l : list Z) : bool :=
  forallb (fun v => forallb (fun w => implb (v <? w) (f v <? f w)%float) l) l.

Definition non_decreasing_on (f : Z -> float) (l : list Z) : bool :=
  forallb (fun v => forallb (fun w => implb (v <=? w) (f v <=? f w)%float) l) l.

(** The specification's rule for the state: whatever value a master-volume
    or a tempo controller carries, what ends up stored (on a host that
    accepts the call) lies in the documented range. *)
Definition stored_volume_in_range (cc_value : Z) : Prop :=
  forall x : float,
    last_mixer_values
      (final (HandleControlChange MIDI_CC_MASTER_VOLUME cc_value
                (surface_ok 16 16 0) [] init_state)) !! 0 = Some x ->
    in_range 0 1 x = true.

Definition stored_tempo_in_range (cc_value : Z) : Prop :=
  forall x : float,
    tempo_last
      (final (HandleControlChange MIDI_CC_TEMPO cc_value
                (surface_ok 16 16 0) [] init_state)) = Py.Float x ->
    in_range 20 300 x = true.

(** A state function that never looks at [automation_enabled]: run on a
    state with another flag, it gives the same state up to the flag. *)
Definition keeps_flag_apart (f : AutomationState -> AutomationState) : Prop :=
  forall (b : bool) (s : AutomationState),
    exists b', f (automation_enabled_set b s) = automation_enabled_set b' (f s).

(** A computation that never lets [automation_enabled] reach a call, a log
    line, its completion or another field: run on a state with another
    flag, it differs in the flag of the final state at most. *)
Definition flag_blind {A} (m : M A) : Prop :=
  forall (surf : Surface) (hist : list ExtCall) (s : AutomationState)
         (b : bool),
    let r := m surf hist s in
    let r' := m surf hist (automation_enabled_set b s) in
    (exists b', final r' = automation_enabled_set b' (final r))
    /\ issued r' = issued r
    /\ logged r' = logged r
    /\ completion r' = completion r.

(** ** Frames and invariants *)

(** A frame as the message source guarantees it: each field within its
    byte range. *)
Definition well_formed (event : Event) : Prop :=
  0 <= status event <= 255
  /\ 0 <= data1 event <= 127
  /\ 0 <= data2 event <= 127.

(** The frames that [OnMidiIn] handles as a note-off: status [0x80], and
    status [0x90] without a positive velocity. *)
Definition is_note_off_frame (event : Event) : Prop :=
  status event = 0x80 \/ (status event = 0x90 /\ data2 event <= 0).

(** The note-ons that reach a host call outside any [try]: the three
    transport notes and the channel-volume notes 64..79. *)
Definition is_unguarded_note_on (event : Event) : Prop :=
  status event = 0x90 /\ data2 event > 0
  /\ (data1 event = MIDI_NOTE_PLAY \/ data1 event = MIDI_NOTE_STOP
      \/ data1 event = MIDI_NOTE_RECORD \/ 64 <= data1 event <= 79).

(** A host whose failures are all ordinary exceptions. *)
Definition raises_only_Exception (surf : Surface) : Prop :=
  forall hist c e, surf hist c = Raises e -> e = Py.Exception.

(** [pan_value = normalized - 0.5] *)
Definition pan_of (cc_value : Z) : float :=
  (div127 cc_value - 0.5)%float.

(** Every active pattern is one of the sixteen of the pattern bank. *)
Definition patterns_in_bank (s : AutomationState) : Prop :=
  forall i, i ∈ active_patterns s ->
            0 <= i <= PATTERN_NOTE_END - PATTERN_NOTE_START.

(** Every cached mixer value belongs to a track index that is not negative
    and lies in [0.0, 1.0]. *)
Definition mixer_cache_in_range (s : AutomationState) : Prop :=
  map_Forall (fun track v => 0 <= track /\ in_range 0 1 v = true)
             (last_mixer_values s).

(** The last tempo is the initial [120] or a float in [20, 300]. *)
Definition tempo_in_range (s : AutomationState) : Prop :=
  match tempo_last s with
  | Py.Int z => z = 120
  | Py.Float t => in_range 20 300 t = true
  end.

(** The index a call hands to the host, if it hands one. *)
Definition call_index (c : ExtCall) : option Z :=
  match c with
  | SetCurrentPattern index => Some index
  | SetChannelVolume index _ => Some index
  | SetTrackVolume track _ => Some track
  | SetTrackPan track _ => Some track
  | _ => None
  end.

(** No negative index is handed to the host. *)
Definition index_not_negative (c : ExtCall) : Prop :=
  match call_index c with
  | Some i => 0 <= i
  | None => True
  end.

(** ** Tactics *)

(** Unfolds the monad under a handler. *)
Ltac unfold_m :=
  unfold try_except_Exception, try_except, bind, call, debug_log, modify,
    get_state, ret; simpl.

(** One case split of a handler: on a test of the source, or on the
    answer of the host to the next call. *)
Ltac branch :=
  match goal with
  | |- context [match ?surf ?h ?c with Returns _ => _ | Raises _ => _ end] =>
      destruct (surf h c) as [? | []]; simpl
  | |- context [if ?b then _ else _] =>
      match type of b with bool => destruct b; simpl end
  end.

(** Closes a goal whose hypothesis finds a failed call among calls that
    all returned. *)
Ltac no_such_call :=
  match goal with
  | H : some_call_failed _ |- _ =>
      destruct H as (? & ? & H); simpl in H; intuition discriminate
  | H : some_call_raised_Exception _ |- _ =>
      destruct H as (? & H); simpl in H; intuition discriminate
  end.

(** * Properties *)

(** ** Program change *)

(** C3, as stated, fails: with three patterns in the host, program change 5
    asks for the pattern count and selects nothing. *)
Lemma program_change_5_of_3_selects_nothing :
  issued (HandleProgramChange 5 (surface_ok 3 16 0) [] init_state)
    = [(PatternCount, Returns 3)]
  /\ ~ program_change_always_selects.
Proof.
  split; [reflexivity |].
  intros H. specialize (H (surface_ok 3 16 0) [] init_state 5).
  cbn in H. destruct H as [H | []]; [lia | discriminate].
Qed.

(** C3, amended: [HandleProgramChange p] first asks the host for the
    pattern count; it issues the selection of pattern [p] exactly when the
    count is returned and [p] is below it, and issues nothing more when
    [p] is not below the count or when the query raises.  The state is
    never touched. *)
Theorem program_change_selects_below_count
  (surf : Surface) (hist : list ExtCall) (s : AutomationState) (p : Z) :
  let r := HandleProgramChange p surf hist s in
  issued r =
    match surf hist PatternCount with
    | Returns count =>
        (PatternCount, Returns count) ::
          (if p <? count
           then [(SetCurrentPattern p,
                  surf (PatternCount :: hist) (SetCurrentPattern p))]
           else [])
    | Raises e => [(PatternCount, Raises e)]
    end
  /\ final r = s.
Proof.
  unfold HandleProgramChange; unfold_m.
  destruct (surf hist PatternCount) as [count | []]; simpl; auto.
  destruct (p <? count); simpl; auto.
  destruct (surf (PatternCount :: hist) (SetCurrentPattern p)) as [? | []];
    simpl; auto.
Qed.

(** ** Sustain controller *)

(** C7: controller 64 sets [automation_enabled] to [cc_value >= 64], for
    every value (in particular for every value in 0..127): 63 disables, 64
    enables. *)
Theorem cc64_sets_automation_enabled
  (surf : Surface) (hist : list ExtCall) (s : AutomationState) (v : Z) :
  let r := OnMidiIn (mkEvent 0xB0 64 v) surf hist s in
  automation_enabled (final r) = (v >=? 64)
  /\ (v >= 64 -> automation_enabled (final r) = true)
  /\ (v < 64 -> automation_enabled (final r) = false)
  /\ final r = automation_enabled_set (v >=? 64) s
  /\ final (HandleControlChange 64 v surf hist s) = final r
  /\ completion r = Normal tt
  /\ automation_enabled
       (final (OnMidiIn (mkEvent 0xB0 64 63) surf hist s)) = false
  /\ automation_enabled
       (final (OnMidiIn (mkEvent 0xB0 64 64) surf hist s)) = true.
Proof.
  cbn. repeat split; try reflexivity.
  - intros H. apply Z.geb_le. lia.
  - intros H. destruct (v >=? 64) eqn:E; [| reflexivity].
    apply Z.geb_le in E. lia.
Qed.

(** At values 100 and 10. *)
Lemma cc64_sets_automation_enabled_at_100_and_10 :
  100 >= 64 /\ 10 < 64
  /\ automation_enabled
       (final (OnMidiIn (mkEvent 0xB0 64 100) surface_down [] init_state))
     = true
  /\ automation_enabled
       (final (OnMidiIn (mkEvent 0xB0 64 10) surface_down [] init_state))
     = false.
Proof.
  destruct (cc64_sets_automation_enabled surface_down [] init_state 100)
    as (_ & Hon & _).
  destruct (cc64_sets_automation_enabled surface_down [] init_state 10)
    as (_ & _ & Hoff & _).
  split; [lia |]. split; [lia |]. split; [apply Hon | apply Hoff]; lia.
Defined.

(** ** The monad *)

(** A log line in front of a computation only adds to the log. *)
Lemma bind_debug_log {A} (message : LogMsg) (m : M A)
  (surf : Surface) (hist : list ExtCall) (s : AutomationState) :
  (do debug_log message ;; m) surf hist s
  = let r := m surf hist s in
    mkRun (final r) (issued r) (message :: logged r) (completion r).
Proof.
  unfold bind, debug_log; simpl. now destruct (completion (m surf hist s)).
Qed.

(** ** Decoding *)

(** [OnMidiIn] logs the frame and runs the handler of the event that
    [classify] finds. *)
Lemma OnMidiIn_dispatch
  (event : Event) (surf : Surface) (hist : list ExtCall) (s : AutomationState) :
  decodes_with classify event surf hist s.
Proof.
  destruct event as [st d1 d2].
  unfold decodes_with, OnMidiIn, classify; simpl.
  destruct (st =? 144); destruct (st =? 128); simpl;
    try destruct (d2 >? 0); simpl; try reflexivity;
    destruct (st =? 176); simpl; try reflexivity;
    destruct (st =? 192); reflexivity.
Qed.

(** The run of [OnMidiIn] in terms of the run of the handler. *)
Lemma OnMidiIn_run
  (event : Event) (surf : Surface) (hist : list ExtCall) (s : AutomationState) :
  OnMidiIn event surf hist s
  = let r := dispatch (classify event) surf hist s in
    mkRun (final r) (issued r)
          (LMidiIn (status event) (data1 event) (data2 event) :: logged r)
          (completion r).
Proof.
  rewrite <- bind_debug_log. apply OnMidiIn_dispatch.
Qed.

Lemma classify_note_on (note velocity : Z) :
  0 < velocity -> classify (mkEvent 0x90 note velocity) = NoteOn note velocity.
Proof.
  intros H. unfold classify; simpl. apply Z.gtb_lt in H. now rewrite H.
Qed.

(** C1, as stated, fails: a note-on with velocity on MIDI channel 2
    (status [0x91], high nibble [0x9]) is a [NoteOn] for the high-nibble
    decoder, and note 60 would start the transport; [OnMidiIn] compares
    the whole status byte with [0x90] and does nothing. *)
Lemma status_0x91_is_not_decoded :
  decode_by_high_nibble (mkEvent 0x91 60 100) = NoteOn 60 100
  /\ issued (dispatch (NoteOn 60 100) (surface_ok 16 16 0) [] init_state)
     = [(TransportStart, Returns 0)]
  /\ issued (OnMidiIn (mkEvent 0x91 60 100) (surface_ok 16 16 0) [] init_state)
     = []
  /\ ~ decodes_with decode_by_high_nibble (mkEvent 0x91 60 100)
         (surface_ok 16 16 0) [] init_state.
Proof.
  repeat split; try reflexivity.
  unfold decodes_with. intros H.
  apply (f_equal issued) in H. discriminate H.
Qed.

(** C1, amended: [OnMidiIn] classifies a frame by its whole status byte.
    Status [0x80] is handled as [NoteOff(data1)]; status [0x90] as
    [NoteOff(data1)] when [data2] is 0 and as [NoteOn(data1, data2)] when
    [data2 > 0]; status [0xB0] as [ControlChange(data1, data2)]; status
    [0xC0] as [ProgramChange(data1)]; every other status byte (the other
    fifteen channels of each message kind included) is inert: the frame is
    logged, nothing else happens and nothing is raised.  A frame with
    status [0x90] and [data2 = 0] leaves the same state, calls and
    completion as the frame with status [0x80] and the same note. *)
Theorem OnMidiIn_classifies_by_whole_status
  (st d1 d2 : Z) (surf : Surface) (hist : list ExtCall) (s : AutomationState) :
  decodes_with classify (mkEvent st d1 d2) surf hist s
  /\ classify (mkEvent 0x80 d1 d2) = NoteOff d1
  /\ classify (mkEvent 0x90 d1 0) = NoteOff d1
  /\ (0 < d2 -> classify (mkEvent 0x90 d1 d2) = NoteOn d1 d2)
  /\ classify (mkEvent 0xB0 d1 d2) = ControlChange d1 d2
  /\ classify (mkEvent 0xC0 d1 d2) = ProgramChange d1
  /\ (st <> 0x80 -> st <> 0x90 -> st <> 0xB0 -> st <> 0xC0 ->
      classify (mkEvent st d1 d2) = Unknown
      /\ OnMidiIn (mkEvent st d1 d2) surf hist s
         = mkRun s [] [LMidiIn st d1 d2] (Normal tt))
  /\ observable (OnMidiIn (mkEvent 0x90 d1 0) surf hist s)
     = observable (OnMidiIn (mkEvent 0x80 d1 d2) surf hist s).
Proof.
  split; [| repeat split]; try reflexivity.
  - apply OnMidiIn_dispatch.
  - apply classify_note_on.
  - unfold classify; simpl.
    destruct (Z.eqb_spec st 144); [contradiction |].
    destruct (Z.eqb_spec st 128); [contradiction |].
    destruct (Z.eqb_spec st 176); [contradiction |].
    destruct (Z.eqb_spec st 192); [contradiction | reflexivity].
  - unfold OnMidiIn; simpl.
    destruct (Z.eqb_spec st 144); [contradiction |].
    destruct (Z.eqb_spec st 128); [contradiction |].
    destruct (Z.eqb_spec st 176); [contradiction |].
    destruct (Z.eqb_spec st 192); [contradiction | reflexivity].
Qed.

(** At status [0x91], note 60, velocity 100. *)
Lemma OnMidiIn_classifies_by_whole_status_at_0x91 :
  0 < 100
  /\ classify (mkEvent 0x90 60 100) = NoteOn 60 100
  /\ classify (mkEvent 0x91 60 100) = Unknown
  /\ OnMidiIn (mkEvent 0x91 60 100) (surface_ok 16 16 0) [] init_state
     = mkRun init_state [] [LMidiIn 0x91 60 100] (Normal tt).
Proof.
  destruct (OnMidiIn_classifies_by_whole_status
              0x91 60 100 (surface_ok 16 16 0) [] init_state)
    as (_ & _ & _ & Hon & _ & _ & Hother & _).
  split; [lia |]. split; [apply Hon; lia |].
  apply Hother; discriminate.
Defined.

(** ** Notes in the pattern range *)

(** Notes of the pattern range are none of the three transport notes. *)
Lemma pattern_note_tests (note : Z) :
  PATTERN_NOTE_START <= note <= PATTERN_NOTE_END ->
  (note =? MIDI_NOTE_PLAY) = false
  /\ (note =? MIDI_NOTE_STOP) = false
  /\ (note =? MIDI_NOTE_RECORD) = false
  /\ (PATTERN_NOTE_START <=? note) && (note <=? PATTERN_NOTE_END) = true.
Proof.
  unfold PATTERN_NOTE_START, PATTERN_NOTE_END, MIDI_NOTE_PLAY, MIDI_NOTE_STOP,
    MIDI_NOTE_RECORD.
  intros H. repeat split; try (apply Z.eqb_neq; lia).
  apply andb_true_intro. split; apply Z.leb_le; lia.
Qed.

(** A note-on in the pattern range records the pattern first and then
    tries the host inside a bare [try]: whatever the host does, the
    handler returns and the state is the old one with the pattern added. *)
Lemma HandleNoteOn_pattern
  (surf : Surface) (hist : list ExtCall) (s : AutomationState)
  (note velocity : Z) :
  PATTERN_NOTE_START <= note <= PATTERN_NOTE_END ->
  let r := HandleNoteOn note velocity surf hist s in
  final r = active_patterns_add (note - PATTERN_NOTE_START) s
  /\ completion r = Normal tt.
Proof.
  intros H. destruct (pattern_note_tests note H) as (H1 & H2 & H3 & H4).
  unfold HandleNoteOn; unfold_m. rewrite H1, H2, H3, H4; simpl.
  destruct (surf hist PatternCount) as [count | e]; simpl; [| now split].
  destruct (note - PATTERN_NOTE_START <? count); simpl; [| now split].
  destruct (surf (PatternCount :: hist) _); simpl; now split.
Qed.

(** A note-off in the pattern range discards the pattern and calls nothing. *)
Lemma HandleNoteOff_pattern
  (surf : Surface) (hist : list ExtCall) (s : AutomationState) (note : Z) :
  PATTERN_NOTE_START <= note <= PATTERN_NOTE_END ->
  HandleNoteOff note surf hist s
  = mkRun (active_patterns_discard (note - PATTERN_NOTE_START) s)
          [] [LNoteOff note] (Normal tt).
Proof.
  intros H. destruct (pattern_note_tests note H) as (_ & _ & _ & H4).
  unfold HandleNoteOff; unfold_m. now rewrite H4.
Qed.

(** [discard] on a set without the element, and right after [add]. *)
Lemma discard_absent (i : Z) : (∅ : gset Z) ∖ {[ i ]} = ∅.
Proof. apply empty_difference_L. Qed.

Lemma discard_added (i : Z) : ({[ i ]} ∪ ∅ : gset Z) ∖ {[ i ]} = ∅.
Proof. rewrite union_empty_r_L. apply difference_diag_L. Qed.

Lemma discard_from_no_active (i : Z) (s : AutomationState) :
  active_patterns s = ∅ -> active_patterns_discard i s = s.
Proof.
  destruct s as [m c r a t p]; simpl; intros ->.
  unfold active_patterns_discard; simpl. f_equal. apply discard_absent.
Qed.

(** C6: for a note of the pattern range and a state with no active
    pattern, [HandleNoteOn] followed by [HandleNoteOff] for the same note
    both return and leave no active pattern, whatever the host answers;
    and a lone [HandleNoteOff] returns, calls nothing and leaves the state
    as it was.  The same holds for the two frames delivered through
    [OnMidiIn]. *)
Theorem note_on_then_off_leaves_no_active_pattern
  (surf : Surface) (hist : list ExtCall) (s : AutomationState)
  (note velocity : Z) :
  PATTERN_NOTE_START <= note <= PATTERN_NOTE_END ->
  active_patterns s = ∅ ->
  let on := HandleNoteOn note velocity surf hist s in
  let off := HandleNoteOff note surf (extend hist (issued on)) (final on) in
  let lone := HandleNoteOff note surf hist s in
  (completion on = Normal tt
   /\ completion off = Normal tt
   /\ active_patterns (final off) = ∅)
  /\ (completion lone = Normal tt
      /\ issued lone = []
      /\ active_patterns (final lone) = ∅
      /\ final lone = s)
  /\ (0 < velocity ->
      let h := deliver [mkEvent 0x90 note velocity; mkEvent 0x80 note 0]
                       surf hist s in
      active_patterns (h_final h) = ∅
      /\ h_completions h = [Normal tt; Normal tt]).
Proof.
  intros H Hempty on off lone.
  pose proof (HandleNoteOn_pattern surf hist s note velocity H) as [Hf Hc].
  fold on in Hf, Hc.
  assert (Hoff : off = mkRun (active_patterns_discard
                                (note - PATTERN_NOTE_START) (final on))
                             [] [LNoteOff note] (Normal tt))
    by (apply HandleNoteOff_pattern, H).
  assert (Hlone : lone = mkRun (active_patterns_discard
                                  (note - PATTERN_NOTE_START) s)
                               [] [LNoteOff note] (Normal tt))
    by (apply HandleNoteOff_pattern, H).
  assert (Hclear : active_patterns (final off) = ∅).
  { rewrite Hoff, Hf; simpl. rewrite Hempty. apply discard_added. }
  split; [| split].
  - split; [exact Hc |]. split; [now rewrite Hoff | exact Hclear].
  - rewrite Hlone; simpl. repeat split.
    + rewrite Hempty. apply discard_absent.
    + now apply discard_from_no_active.
  - intros Hv. unfold deliver. rewrite !OnMidiIn_run.
    rewrite (classify_note_on note velocity Hv).
    change (classify (mkEvent 128 note 0)) with (NoteOff note).
    cbn [dispatch h_final h_completions final issued completion].
    fold on. fold off. split; [exact Hclear |].
    now rewrite Hc, Hoff.
Qed.

(** At note 36, velocity 100, from the initial state, on a host that is
    down. *)
Lemma note_on_then_off_leaves_no_active_pattern_at_36 :
  PATTERN_NOTE_START <= 36 <= PATTERN_NOTE_END
  /\ active_patterns init_state = ∅
  /\ 0 < 100
  /\ active_patterns
       (h_final (deliver [mkEvent 0x90 36 100; mkEvent 0x80 36 0]
                         surface_down [] init_state)) = ∅.
Proof.
  assert (H1 : PATTERN_NOTE_START <= 36 <= PATTERN_NOTE_END)
    by (unfold PATTERN_NOTE_START, PATTERN_NOTE_END; lia).
  assert (H2 : active_patterns init_state = ∅) by reflexivity.
  assert (H3 : 0 < 100) by lia.
  destruct (note_on_then_off_leaves_no_active_pattern
              surface_down [] init_state 36 100 H1 H2) as (_ & _ & Hd).
  split; [exact H1 |]. split; [exact H2 |]. split; [exact H3 |].
  exact (proj1 (Hd H3)).
Defined.

(** ** Failed calls *)

(** C2, as stated, fails: a note-on for pattern 0 whose selection the host
    refuses has already put the pattern in [active_patterns]. *)
Lemma refused_pattern_is_recorded :
  let r := OnMidiIn (mkEvent 0x90 36 100) (surface_refusing 16 16 0) []
                    init_state in
  issued r = [(PatternCount, Returns 16);
              (SetCurrentPattern 0, Raises Py.Exception)]
  /\ active_patterns (final r) = {[ 0 ]} ∪ ∅
  /\ ~ failure_leaves_state (mkEvent 0x90 36 100) (surface_refusing 16 16 0)
         [] init_state.
Proof.
  repeat split.
  unfold failure_leaves_state. intros H.
  assert (Hin : (0 : Z) ∈ active_patterns init_state).
  { rewrite <- H.
    - apply elem_of_union_l, elem_of_singleton. reflexivity.
    - exists (SetCurrentPattern 0), Py.Exception. simpl. auto. }
  exact (not_elem_of_empty _ Hin).
Qed.

(** A control change whose host call fails changes nothing; when the
    failure is an ordinary exception it is logged and the handler returns. *)
Lemma HandleControlChange_failure
  (surf : Surface) (hist : list ExtCall) (s : AutomationState)
  (cc_number cc_value : Z) :
  let r := HandleControlChange cc_number cc_value surf hist s in
  (some_call_failed r -> final r = s)
  /\ (some_call_raised_Exception r ->
      completion r = Normal tt /\ existsb is_error_line (logged r) = true).
Proof.
  unfold HandleControlChange; unfold_m.
  repeat branch; (split; intros H; [| split]); try reflexivity; no_such_call.
Qed.

(** The same for a program change. *)
Lemma HandleProgramChange_failure
  (surf : Surface) (hist : list ExtCall) (s : AutomationState) (program : Z) :
  let r := HandleProgramChange program surf hist s in
  (some_call_failed r -> final r = s)
  /\ (some_call_raised_Exception r ->
      completion r = Normal tt /\ existsb is_error_line (logged r) = true).
Proof.
  unfold HandleProgramChange; unfold_m.
  repeat branch; (split; intros H; [| split]); try reflexivity; no_such_call.
Qed.

(** A refused pattern selection is logged by the bare [except]. *)
Lemma HandleNoteOn_pattern_failure
  (surf : Surface) (hist : list ExtCall) (s : AutomationState)
  (note velocity : Z) :
  PATTERN_NOTE_START <= note <= PATTERN_NOTE_END ->
  let r := HandleNoteOn note velocity surf hist s in
  some_call_failed r ->
  In (LPatternFailed (note - PATTERN_NOTE_START)) (logged r).
Proof.
  intros H. destruct (pattern_note_tests note H) as (H1 & H2 & H3 & H4).
  unfold HandleNoteOn; unfold_m. rewrite H1, H2, H3, H4; simpl.
  repeat branch; intros Hf; simpl; auto; no_such_call.
Qed.

(** Two frames delivered in a row: the second is handled on the state and
    the call history the first one left, however the first one ended. *)
Lemma deliver_two
  (event next : Event) (surf : Surface) (hist : list ExtCall)
  (s : AutomationState) :
  let r := OnMidiIn event surf hist s in
  let r' := OnMidiIn next surf (extend hist (issued r)) (final r) in
  h_final (deliver [event; next] surf hist s) = final r'
  /\ h_completions (deliver [event; next] surf hist s)
     = [completion r; completion r'].
Proof. split; reflexivity. Qed.

(** C2, amended: when a call made for a control change or a program change
    is refused by the host, no field of the state is changed; when it is
    refused with an ordinary exception the refusal is logged, the callback
    returns, and the next frame is handled on that unchanged state.  A
    note-on in the pattern range adds its pattern to [active_patterns]
    before the host is asked: that field is updated whether or not the
    selection is refused, the refusal is logged, the callback returns and
    the next frame is handled. *)
Theorem failed_call_is_contained
  (event next : Event) (note velocity : Z)
  (surf : Surface) (hist : list ExtCall) (s : AutomationState) :
  let r := OnMidiIn event surf hist s in
  let p := OnMidiIn (mkEvent 0x90 note velocity) surf hist s in
  (status event = 0xB0 \/ status event = 0xC0 ->
   (some_call_failed r -> final r = s)
   /\ (some_call_raised_Exception r ->
       completion r = Normal tt
       /\ existsb is_error_line (logged r) = true
       /\ h_final (deliver [event; next] surf hist s)
          = final (OnMidiIn next surf (extend hist (issued r)) s)
       /\ h_completions (deliver [event; next] surf hist s)
          = [Normal tt;
             completion (OnMidiIn next surf (extend hist (issued r)) s)]))
  /\ (PATTERN_NOTE_START <= note <= PATTERN_NOTE_END -> 0 < velocity ->
      completion p = Normal tt
      /\ final p = active_patterns_add (note - PATTERN_NOTE_START) s
      /\ (some_call_failed p ->
          In (LPatternFailed (note - PATTERN_NOTE_START)) (logged p))
      /\ h_final (deliver [mkEvent 0x90 note velocity; next] surf hist s)
         = final (OnMidiIn next surf (extend hist (issued p)) (final p))).
Proof.
  intros r p. split.
  - intros Hst.
    assert (Hr : (some_call_failed r -> final r = s)
                 /\ (some_call_raised_Exception r ->
                     completion r = Normal tt
                     /\ existsb is_error_line (logged r) = true)).
    { subst r. rewrite OnMidiIn_run.
      destruct event as [st d1 d2]; simpl in Hst.
      destruct Hst as [-> | ->].
      - apply (HandleControlChange_failure surf hist s d1 d2).
      - apply (HandleProgramChange_failure surf hist s d1). }
    destruct Hr as [Hsame Hlog]. split; [exact Hsame |].
    intros Hexc. destruct (Hlog Hexc) as [Hc Hl].
    assert (Hfinal : final r = s).
    { apply Hsame. destruct Hexc as [c Hc']. now exists c, Py.Exception. }
    destruct (deliver_two event next surf hist s) as [Hd1 Hd2].
    fold r in Hd1, Hd2. rewrite Hfinal in Hd1, Hd2. rewrite Hc in Hd2.
    repeat split; assumption.
  - intros Hnote Hvel.
    assert (Hnext : h_final (deliver [mkEvent 0x90 note velocity; next]
                                     surf hist s)
                    = final (OnMidiIn next surf (extend hist (issued p))
                                      (final p)))
      by apply (deliver_two (mkEvent 0x90 note velocity) next surf hist s).
    revert Hnext. subst p.
    rewrite (OnMidiIn_run (mkEvent 0x90 note velocity) surf hist s).
    rewrite (classify_note_on note velocity Hvel).
    cbn [dispatch final completion logged issued]. intros Hnext.
    destruct (HandleNoteOn_pattern surf hist s note velocity Hnote) as [Hf Hc].
    split; [exact Hc |]. split; [exact Hf |]. split; [| exact Hnext].
    intros Hfail. right.
    apply (HandleNoteOn_pattern_failure surf hist s note velocity Hnote).
    exact Hfail.
Qed.

(** A refused master-volume change followed by a sustain-off: the volume
    cache stays empty and the second frame disables automation. *)
Lemma failed_call_is_contained_at_master_volume :
  let event := mkEvent 0xB0 1 100 in
  let next := mkEvent 0xB0 64 0 in
  let surf := surface_refusing 16 16 0 in
  (status event = 0xB0 \/ status event = 0xC0)
  /\ some_call_raised_Exception (OnMidiIn event surf [] init_state)
  /\ PATTERN_NOTE_START <= 36 <= PATTERN_NOTE_END
  /\ 0 < 100
  /\ h_final (deliver [event; next] surf [] init_state)
     = automation_enabled_set false init_state
  /\ final (OnMidiIn (mkEvent 0x90 36 100) surf [] init_state)
     = active_patterns_add 0 init_state.
Proof.
  intros event next surf.
  assert (H1 : status event = 0xB0 \/ status event = 0xC0)
    by (left; reflexivity).
  assert (H2 : some_call_raised_Exception (OnMidiIn event surf [] init_state))
    by (exists (SetTrackVolume 0 (div127 100)); left; reflexivity).
  assert (H3 : PATTERN_NOTE_START <= 36 <= PATTERN_NOTE_END)
    by (unfold PATTERN_NOTE_START, PATTERN_NOTE_END; lia).
  assert (H4 : 0 < 100) by lia.
  destruct (failed_call_is_contained event next 36 100 surf [] init_state)
    as [Hcc Hpat].
  destruct (Hcc H1) as [_ Hexc].
  destruct (Hexc H2) as (_ & _ & Hnext & _).
  destruct (Hpat H3 H4) as (_ & Hadd & _).
  split; [exact H1 |]. split; [exact H2 |]. split; [exact H3 |].
  split; [exact H4 |]. split; [| exact Hadd].
  rewrite Hnext. reflexivity.
Defined.

(** ** Exceptions that leave the callback *)

(** C4: the claim fails on the code.  A note-on in the channel-volume range
    (notes 64..79) calls [channels.channelCount] and
    [channels.setChannelVolume] outside any [try], and the transport notes
    call [transport.start]/[transport.stop] outside any [try]: when the
    host raises there, the exception leaves [OnMidiIn].  The sibling
    branch for pattern notes, on the same host, returns. *)
Theorem note_on_raises_out_of_OnMidiIn :
  completion (OnMidiIn (mkEvent 0x90 64 100) surface_down [] init_state)
  = Raised Py.Exception
  /\ issued (OnMidiIn (mkEvent 0x90 64 100) (surface_refusing 16 16 0) []
                      init_state)
     = [(ChannelCount, Returns 16);
        (SetChannelVolume 0 (div127 100), Raises Py.Exception)]
  /\ completion (OnMidiIn (mkEvent 0x90 64 100) (surface_refusing 16 16 0) []
                          init_state)
     = Raised Py.Exception
  /\ completion (OnMidiIn (mkEvent 0x90 60 100) surface_down [] init_state)
     = Raised Py.Exception
  /\ completion (OnMidiIn (mkEvent 0x90 36 100) surface_down [] init_state)
     = Normal tt.
Proof. repeat split. Qed.

(** ** Numbers *)

(** A property checked on each of the 128 values holds of every value in
    0..127. *)
Lemma seven_bit_cases (P : Z -> bool) :
  forallb P seven_bit_values = true ->
  forall v, 0 <= v <= 127 -> P v = true.
Proof.
  intros H v Hv. rewrite forallb_forall in H. apply H.
  unfold seven_bit_values. apply in_map_iff.
  exists (Z.to_nat v). split; [lia |]. apply in_seq. lia.
Qed.

Lemma strictly_increasing_on_seven_bit (f : Z -> float) :
  strictly_increasing_on f seven_bit_values = true ->
  forall v w, 0 <= v -> v < w -> w <= 127 -> (f v <? f w)%float = true.
Proof.
  intros H v w H0 Hvw H127.
  pose proof (seven_bit_cases _ H v ltac:(lia)) as Hv. cbv beta in Hv.
  pose proof (seven_bit_cases _ Hv w ltac:(lia)) as Hw. cbv beta in Hw.
  apply Z.ltb_lt in Hvw. now rewrite Hvw in Hw.
Qed.

Lemma non_decreasing_on_seven_bit (f : Z -> float) :
  non_decreasing_on f seven_bit_values = true ->
  forall v w, 0 <= v -> v <= w -> w <= 127 -> (f v <=? f w)%float = true.
Proof.
  intros H v w H0 Hvw H127.
  pose proof (seven_bit_cases _ H v ltac:(lia)) as Hv. cbv beta in Hv.
  pose proof (seven_bit_cases _ Hv w ltac:(lia)) as Hw. cbv beta in Hw.
  apply Z.leb_le in Hvw. now rewrite Hvw in Hw.
Qed.

(** The tempo the handler computes, [20 + (normalized * 280)] with its
    two [int] literals, is the specification's formula. *)
Lemma tempo_expression (cc_value : Z) :
  (Py.float_of_Z 20 + div127 cc_value * Py.float_of_Z 280)%float
  = tempo_hint cc_value.
Proof. reflexivity. Qed.

(** ** The controllers, run by run *)

(** Controller 1 (master volume). *)
Lemma HandleControlChange_master_volume
  (surf : Surface) (hist : list ExtCall) (s : AutomationState) (v : Z) :
  HandleControlChange MIDI_CC_MASTER_VOLUME v surf hist s
  = match surf hist (SetTrackVolume 0 (div127 v)) with
    | Returns x =>
        mkRun (last_mixer_values_set 0 (div127 v) s)
              [(SetTrackVolume 0 (div127 v), Returns x)]
              [LCC MIDI_CC_MASTER_VOLUME v (div127 v);
               LMasterVolume (div127 v)]
              (Normal tt)
    | Raises Py.Exception =>
        mkRun s [(SetTrackVolume 0 (div127 v), Raises Py.Exception)]
              [LCC MIDI_CC_MASTER_VOLUME v (div127 v); LErrMasterVolume]
              (Normal tt)
    | Raises Py.BaseException =>
        mkRun s [(SetTrackVolume 0 (div127 v), Raises Py.BaseException)]
              [LCC MIDI_CC_MASTER_VOLUME v (div127 v)]
              (Raised Py.BaseException)
    end.
Proof.
  unfold HandleControlChange; unfold_m.
  destruct (surf hist (SetTrackVolume 0 (div127 v))) as [x | []]; reflexivity.
Qed.

(** Controller 4 (tempo). *)
Lemma HandleControlChange_tempo
  (surf : Surface) (hist : list ExtCall) (s : AutomationState) (v : Z) :
  HandleControlChange MIDI_CC_TEMPO v surf hist s
  = match surf hist (SetHintMsg (tempo_hint v)) with
    | Returns x =>
        mkRun (tempo_last_set (tempo_hint v) s)
              [(SetHintMsg (tempo_hint v), Returns x)]
              [LCC MIDI_CC_TEMPO v (div127 v); LTempo (tempo_hint v)]
              (Normal tt)
    | Raises Py.Exception =>
        mkRun s [(SetHintMsg (tempo_hint v), Raises Py.Exception)]
              [LCC MIDI_CC_TEMPO v (div127 v); LErrTempo]
              (Normal tt)
    | Raises Py.BaseException =>
        mkRun s [(SetHintMsg (tempo_hint v), Raises Py.BaseException)]
              [LCC MIDI_CC_TEMPO v (div127 v)]
              (Raised Py.BaseException)
    end.
Proof.
  unfold HandleControlChange; unfold_m. rewrite !tempo_expression.
  destruct (surf hist (SetHintMsg (tempo_hint v))) as [x | []]; reflexivity.
Qed.

(** Controller 7 on a host with a selected track. *)
Lemma HandleControlChange_cc7_selected
  (surf : Surface) (hist : list ExtCall) (s : AutomationState) (v track : Z) :
  surf hist SelectedTrack = Returns track -> 0 <= track ->
  let set := SetTrackVolume track (div127 v) in
  HandleControlChange 7 v surf hist s
  = match surf (SelectedTrack :: hist) set with
    | Returns x =>
        mkRun (last_mixer_values_set track (div127 v) s)
              [(SelectedTrack, Returns track); (set, Returns x)]
              [LCC 7 v (div127 v); LTrackVolumeCC7 track (div127 v)]
              (Normal tt)
    | Raises Py.Exception =>
        mkRun s [(SelectedTrack, Returns track); (set, Raises Py.Exception)]
              [LCC 7 v (div127 v); LErrVolume]
              (Normal tt)
    | Raises Py.BaseException =>
        mkRun s
              [(SelectedTrack, Returns track); (set, Raises Py.BaseException)]
              [LCC 7 v (div127 v)]
              (Raised Py.BaseException)
    end.
Proof.
  intros Hsel Htrack set. apply Z.geb_le in Htrack.
  unfold HandleControlChange; unfold_m. rewrite Hsel; simpl.
  rewrite Htrack; simpl. fold set.
  destruct (surf (SelectedTrack :: hist) set) as [x | []]; reflexivity.
Qed.

(** Controllers 7 and 2 make the same calls and the same assignments. *)
Lemma cc7_runs_as_track_volume
  (surf : Surface) (hist : list ExtCall) (s : AutomationState) (v : Z) :
  observable (HandleControlChange 7 v surf hist s)
  = observable (HandleControlChange MIDI_CC_TRACK_VOLUME v surf hist s).
Proof.
  unfold HandleControlChange; unfold_m. repeat branch; reflexivity.
Qed.

(** ** Tempo *)

(** C8: the tempo controller (controller 4) hands the host, and on
    success stores, [20.0 + (v/127.0)*280.0]; this is 20.0 at 0, 300.0 at
    127, and strictly increasing over the controller values 0..127. *)
Theorem tempo_mapping
  (surf : Surface) (hist : list ExtCall) (s : AutomationState) (v w : Z) :
  let r := HandleControlChange MIDI_CC_TEMPO v surf hist s in
  issued r = [(SetHintMsg (tempo_hint v), surf hist (SetHintMsg (tempo_hint v)))]
  /\ (forall x, surf hist (SetHintMsg (tempo_hint v)) = Returns x ->
      tempo_last (final r) = Py.Float (tempo_hint v))
  /\ tempo_hint 0 = 20%float
  /\ tempo_hint 127 = 300%float
  /\ (0 <= v -> v < w -> w <= 127 ->
      (tempo_hint v <? tempo_hint w)%float = true).
Proof.
  intros r. subst r. rewrite HandleControlChange_tempo.
  split; [| split; [| split; [| split]]].
  - destruct (surf hist (SetHintMsg (tempo_hint v))) as [x | []]; reflexivity.
  - intros x ->. reflexivity.
  - reflexivity.
  - reflexivity.
  - apply strictly_increasing_on_seven_bit. vm_compute. reflexivity.
Qed.

(** At values 63 and 64 on a host that accepts the hint. *)
Lemma tempo_mapping_at_63_64 :
  0 <= 63 /\ 63 < 64 /\ 64 <= 127
  /\ (tempo_hint 63 <? tempo_hint 64)%float = true
  /\ tempo_last
       (final (HandleControlChange MIDI_CC_TEMPO 63 (surface_ok 16 16 0) []
                                   init_state))
     = Py.Float (tempo_hint 63).
Proof.
  destruct (tempo_mapping (surface_ok 16 16 0) [] init_state 63 64)
    as (_ & Hstore & _ & _ & Hlt).
  split; [lia |]. split; [lia |]. split; [lia |].
  split; [apply Hlt; lia |].
  apply (Hstore 0). reflexivity.
Defined.

(** ** Volume *)

(** C9: controller 7 with value [v] sets the volume of the selected track
    to [v/127.0] (the call made to the host, and on success the value
    cached for that track): 0.0 at 0, 1.0 at 127, non-decreasing over
    0..127; and controller 7 makes the same calls and leaves the same
    state as the dedicated track-volume controller (controller 2). *)
Theorem cc7_volume_mapping
  (surf : Surface) (hist : list ExtCall) (s : AutomationState)
  (v w track : Z) :
  let r := HandleControlChange 7 v surf hist s in
  let set := SetTrackVolume track (div127 v) in
  observable r
  = observable (HandleControlChange MIDI_CC_TRACK_VOLUME v surf hist s)
  /\ div127 v = (Py.float_of_Z v / 127)%float
  /\ (surf hist SelectedTrack = Returns track -> 0 <= track ->
      issued r = [(SelectedTrack, Returns track);
                  (set, surf (SelectedTrack :: hist) set)]
      /\ (forall x, surf (SelectedTrack :: hist) set = Returns x ->
          last_mixer_values (final r) !! track = Some (div127 v)))
  /\ div127 0 = 0%float
  /\ div127 127 = 1%float
  /\ (0 <= v -> v <= w -> w <= 127 ->
      (div127 v <=? div127 w)%float = true).
Proof.
  intros r set. split; [apply cc7_runs_as_track_volume |].
  split; [reflexivity |]. split; [| split; [| split]].
  - intros Hsel Htrack. subst r.
    rewrite (HandleControlChange_cc7_selected surf hist s v track Hsel Htrack).
    fold set. split.
    + destruct (surf (SelectedTrack :: hist) set) as [x | []]; reflexivity.
    + intros x ->. simpl. apply lookup_insert_eq.
  - reflexivity.
  - reflexivity.
  - apply non_decreasing_on_seven_bit. vm_compute. reflexivity.
Qed.

(** At values 0 and 127 with track 3 selected. *)
Lemma cc7_volume_mapping_at_track_3 :
  surface_ok 16 16 3 [] SelectedTrack = Returns 3
  /\ 0 <= 3
  /\ (0 <= 0 /\ 0 <= 127 /\ 127 <= 127)
  /\ (div127 0 <=? div127 127)%float = true
  /\ last_mixer_values
       (final (HandleControlChange 7 0 (surface_ok 16 16 3) [] init_state))
       !! 3 = Some (div127 0).
Proof.
  destruct (cc7_volume_mapping (surface_ok 16 16 3) [] init_state 0 127 3)
    as (_ & _ & Hsel & _ & _ & Hmono).
  assert (H1 : surface_ok 16 16 3 [] SelectedTrack = Returns 3)
    by reflexivity.
  assert (H2 : 0 <= 3) by lia.
  destruct (Hsel H1 H2) as [_ Hstore].
  split; [exact H1 |]. split; [exact H2 |]. split; [lia |].
  split; [apply Hmono; lia |].
  apply (Hstore 0). reflexivity.
Defined.

(** ** Ranges of the stored values *)

(** C5, as stated, fails: nothing clamps.  Controller value 255 stores a
    master volume of 255/127.0, above 1.0, and a tempo above 300. *)
Lemma value_255_is_stored_unclamped :
  last_mixer_values
    (final (HandleControlChange MIDI_CC_MASTER_VOLUME 255
              (surface_ok 16 16 0) [] init_state)) !! 0
  = Some (div127 255)
  /\ (1 <? div127 255)%float = true
  /\ (300 <? tempo_hint 255)%float = true
  /\ ~ stored_volume_in_range 255
  /\ ~ stored_tempo_in_range 255.
Proof.
  assert (Hv : last_mixer_values
                 (final (HandleControlChange MIDI_CC_MASTER_VOLUME 255
                           (surface_ok 16 16 0) [] init_state)) !! 0
               = Some (div127 255)).
  { rewrite HandleControlChange_master_volume. simpl. apply lookup_insert_eq. }
  split; [exact Hv |]. split; [reflexivity |]. split; [reflexivity |]. split.
  - intros H. specialize (H _ Hv). discriminate H.
  - intros H. unfold stored_tempo_in_range in H.
    rewrite HandleControlChange_tempo in H.
    specialize (H _ eq_refl). discriminate H.
Qed.

(** Controller 3 hands the host [cc_value/127.0 - 0.5] for the selected
    track. *)
Lemma HandleControlChange_pan_call
  (surf : Surface) (hist : list ExtCall) (s : AutomationState) (v track : Z) :
  surf hist SelectedTrack = Returns track -> 0 <= track ->
  In (SetTrackPan track (div127 v - 0.5)%float)
     (map fst (issued (HandleControlChange MIDI_CC_PAN v surf hist s))).
Proof.
  intros Hsel Htrack. apply Z.geb_le in Htrack.
  unfold HandleControlChange; unfold_m. rewrite Hsel; simpl.
  rewrite Htrack; simpl.
  destruct (surf (SelectedTrack :: hist) _) as [x | []]; simpl; auto.
Qed.

(** C5, amended: the assignments to the state never fail, and no clamping
    is applied: the master volume stored is [cc_value/127.0] and the tempo
    stored is [20 + (cc_value/127.0)*280], as computed, and the pan handed
    to the host ([cc_value/127.0 - 0.5]) is not stored at all.  For a
    controller value in 0..127 these lie in [0.0,1.0], [20,300] and
    [-0.5,0.5]. *)
Theorem stored_values_in_range_for_seven_bit_values
  (surf : Surface) (hist : list ExtCall) (s : AutomationState)
  (v track : Z) (f : AutomationState -> AutomationState) :
  completion (modify f surf hist s) = Normal tt
  /\ (forall x, surf hist (SetTrackVolume 0 (div127 v)) = Returns x ->
      last_mixer_values
        (final (HandleControlChange MIDI_CC_MASTER_VOLUME v surf hist s)) !! 0
      = Some (div127 v))
  /\ (forall x, surf hist (SetHintMsg (tempo_hint v)) = Returns x ->
      tempo_last (final (HandleControlChange MIDI_CC_TEMPO v surf hist s))
      = Py.Float (tempo_hint v))
  /\ (surf hist SelectedTrack = Returns track -> 0 <= track ->
      In (SetTrackPan track (div127 v - 0.5)%float)
         (map fst (issued (HandleControlChange MIDI_CC_PAN v surf hist s)))
      /\ final (HandleControlChange MIDI_CC_PAN v surf hist s) = s)
  /\ (0 <= v <= 127 ->
      in_range 0 1 (div127 v) = true
      /\ in_range 20 300 (tempo_hint v) = true
      /\ in_range (-0.5) 0.5 (div127 v - 0.5)%float = true).
Proof.
  split; [reflexivity |]. split; [| split; [| split]].
  - intros x Hx. rewrite HandleControlChange_master_volume, Hx. simpl.
    apply lookup_insert_eq.
  - intros x Hx. now rewrite HandleControlChange_tempo, Hx.
  - intros Hsel Htrack. split.
    + now apply HandleControlChange_pan_call.
    + apply Z.geb_le in Htrack.
      unfold HandleControlChange; unfold_m. rewrite Hsel; simpl.
      rewrite Htrack; simpl.
      destruct (surf (SelectedTrack :: hist) _) as [x | []]; reflexivity.
  - intros Hv. repeat split.
    + apply (seven_bit_cases (fun v => in_range 0 1 (div127 v)));
        [vm_compute; reflexivity | exact Hv].
    + apply (seven_bit_cases (fun v => in_range 20 300 (tempo_hint v)));
        [vm_compute; reflexivity | exact Hv].
    + apply (seven_bit_cases
               (fun v => in_range (-0.5) 0.5 (div127 v - 0.5)%float));
        [vm_compute; reflexivity | exact Hv].
Qed.

(** At controller value 100 with track 3 selected. *)
Lemma stored_values_in_range_at_100 :
  surface_ok 16 16 3 [] (SetTrackVolume 0 (div127 100)) = Returns 0
  /\ surface_ok 16 16 3 [] (SetHintMsg (tempo_hint 100)) = Returns 0
  /\ surface_ok 16 16 3 [] SelectedTrack = Returns 3
  /\ 0 <= 3
  /\ 0 <= 100 <= 127
  /\ last_mixer_values
       (final (HandleControlChange MIDI_CC_MASTER_VOLUME 100
                 (surface_ok 16 16 3) [] init_state)) !! 0
     = Some (div127 100)
  /\ tempo_last
       (final (HandleControlChange MIDI_CC_TEMPO 100
                 (surface_ok 16 16 3) [] init_state))
     = Py.Float (tempo_hint 100)
  /\ final (HandleControlChange MIDI_CC_PAN 100
              (surface_ok 16 16 3) [] init_state) = init_state
  /\ in_range 0 1 (div127 100) = true
  /\ in_range 20 300 (tempo_hint 100) = true
  /\ in_range (-0.5) 0.5 (div127 100 - 0.5)%float = true.
Proof.
  destruct (stored_values_in_range_for_seven_bit_values
              (surface_ok 16 16 3) [] init_state 100 3 reset)
    as (_ & Hvol & Htempo & Hpan & Hrange).
  assert (Hsel : surface_ok 16 16 3 [] SelectedTrack = Returns 3)
    by reflexivity.
  assert (H3 : 0 <= 3) by lia.
  assert (H100 : 0 <= 100 <= 127) by lia.
  destruct (Hrange H100) as (R1 & R2 & R3).
  destruct (Hpan Hsel H3) as [_ Hsame].
  split; [reflexivity |]. split; [reflexivity |]. split; [exact Hsel |].
  split; [exact H3 |]. split; [exact H100 |].
  split; [apply (Hvol 0); reflexivity |].
  split; [apply (Htempo 0); reflexivity |].
  split; [exact Hsame |].
  split; [exact R1 |]. split; [exact R2 | exact R3].
Defined.

(** ** The automation flag *)

Section FlagBlind.

Create HintDb flag_blind.

(** The assignments to the state. *)
Lemma keeps_flag_apart_add (i : Z) : keeps_flag_apart (active_patterns_add i).
Proof. intros b s. now exists b. Qed.

Lemma keeps_flag_apart_discard (i : Z) :
  keeps_flag_apart (active_patterns_discard i).
Proof. intros b s. now exists b. Qed.

Lemma keeps_flag_apart_mixer (track : Z) (v : float) :
  keeps_flag_apart (last_mixer_values_set track v).
Proof. intros b s. now exists b. Qed.

Lemma keeps_flag_apart_tempo (t : float) :
  keeps_flag_apart (tempo_last_set t).
Proof. intros b s. now exists b. Qed.

Lemma keeps_flag_apart_reset : keeps_flag_apart reset.
Proof. intros b s. now exists b. Qed.

(** The operations of the monad. *)
Lemma flag_blind_ret {A} (a : A) : flag_blind (ret a).
Proof. intros surf hist s b. simpl. split; [now exists b | auto]. Qed.

Lemma flag_blind_debug_log (message : LogMsg) :
  flag_blind (debug_log message).
Proof. intros surf hist s b. simpl. split; [now exists b | auto]. Qed.

Lemma flag_blind_call (c : ExtCall) : flag_blind (call c).
Proof.
  intros surf hist s b. unfold call.
  destruct (surf hist c); simpl; (split; [now exists b | auto]).
Qed.

Lemma flag_blind_modify (f : AutomationState -> AutomationState) :
  keeps_flag_apart f -> flag_blind (modify f).
Proof.
  intros Hf surf hist s b. simpl. split; [apply Hf | auto].
Qed.

Lemma flag_blind_bind {A B} (m : M A) (k : A -> M B) :
  flag_blind m -> (forall a, flag_blind (k a)) -> flag_blind (bind m k).
Proof.
  intros Hm Hk surf hist s b.
  destruct (Hm surf hist s b) as ((b' & Hf) & Hi & Hl & Hc).
  unfold bind. cbv zeta. rewrite Hf, Hi, Hl, Hc.
  destruct (completion (m surf hist s)) as [a | e]; simpl.
  - destruct (Hk a surf (extend hist (issued (m surf hist s)))
                 (final (m surf hist s)) b')
      as ((b'' & Hf') & Hi' & Hl' & Hc').
    rewrite Hf', Hi', Hl', Hc'. split; [now exists b'' | auto].
  - split; [now exists b' | auto].
Qed.

Lemma flag_blind_handler (body handler : M unit) (r r' : Run unit)
  (surf : Surface) (hist : list ExtCall) (b' : bool) :
  flag_blind handler ->
  final r' = automation_enabled_set b' (final r) ->
  issued r' = issued r -> logged r' = logged r ->
  let h := handler surf (extend hist (issued r)) (final r) in
  let h' := handler surf (extend hist (issued r')) (final r') in
  (exists b'', final h' = automation_enabled_set b'' (final h))
  /\ issued r' ++ issued h' = issued r ++ issued h
  /\ logged r' ++ logged h' = logged r ++ logged h
  /\ completion h' = completion h.
Proof.
  intros Hh Hf Hi Hl. cbv zeta. rewrite Hf, Hi, Hl.
  destruct (Hh surf (extend hist (issued r)) (final r) b')
    as (Hf' & Hi' & Hl' & Hc').
  rewrite Hi', Hl', Hc'. auto.
Qed.

Lemma flag_blind_try_except_Exception (body handler : M unit) :
  flag_blind body -> flag_blind handler ->
  flag_blind (try_except_Exception body handler).
Proof.
  intros Hb Hh surf hist s b.
  destruct (Hb surf hist s b) as ((b' & Hf) & Hi & Hl & Hc).
  unfold try_except_Exception. cbv zeta. rewrite Hc.
  destruct (completion (body surf hist s)) as [a | []] eqn:E; simpl.
  - rewrite E. split; [now exists b' | auto].
  - now apply (flag_blind_handler body handler _ _ surf hist b').
  - rewrite E. split; [now exists b' | auto].
Qed.

Lemma flag_blind_try_except (body handler : M unit) :
  flag_blind body -> flag_blind handler ->
  flag_blind (try_except body handler).
Proof.
  intros Hb Hh surf hist s b.
  destruct (Hb surf hist s b) as ((b' & Hf) & Hi & Hl & Hc).
  unfold try_except. cbv zeta. rewrite Hc.
  destruct (completion (body surf hist s)) as [a | e] eqn:E; simpl.
  - rewrite E. split; [now exists b' | auto].
  - now apply (flag_blind_handler body handler _ _ surf hist b').
Qed.

Lemma flag_blind_if {A} (c : bool) (m1 m2 : M A) :
  flag_blind m1 -> flag_blind m2 -> flag_blind (if c then m1 else m2).
Proof. now destruct c. Qed.

(** The one place that mentions the flag: controller 64 writes it and
    logs what it has just written. *)
Lemma flag_blind_sustain (cc_value : Z) :
  flag_blind
    (do modify (automation_enabled_set (cc_value >=? 64)) ;;
     let! s := get_state in
     debug_log (LAutomation (automation_enabled s))).
Proof.
  intros surf hist s b. simpl.
  split; [now exists (cc_value >=? 64) | auto].
Qed.

Hint Resolve keeps_flag_apart_add keeps_flag_apart_discard
  keeps_flag_apart_mixer keeps_flag_apart_tempo keeps_flag_apart_reset
  flag_blind_ret flag_blind_debug_log flag_blind_call flag_blind_modify
  flag_blind_sustain : flag_blind.

(** Walks down a handler. *)
Ltac blind :=
  cbv zeta;
  repeat first
    [ apply flag_blind_sustain
    | apply flag_blind_bind; [| intros ? ]
    | apply flag_blind_if
    | apply flag_blind_try_except_Exception
    | apply flag_blind_try_except
    | solve [ auto with flag_blind ] ].

Lemma flag_blind_HandleNoteOn (note velocity : Z) :
  flag_blind (HandleNoteOn note velocity).
Proof. unfold HandleNoteOn. blind. Qed.

Lemma flag_blind_HandleNoteOff (note : Z) : flag_blind (HandleNoteOff note).
Proof. unfold HandleNoteOff. blind. Qed.

Lemma flag_blind_HandleControlChange (cc_number cc_value : Z) :
  flag_blind (HandleControlChange cc_number cc_value).
Proof. unfold HandleControlChange. blind. Qed.

Lemma flag_blind_HandleProgramChange (program : Z) :
  flag_blind (HandleProgramChange program).
Proof. unfold HandleProgramChange. blind. Qed.

Lemma flag_blind_OnMidiIn (event : Event) : flag_blind (OnMidiIn event).
Proof.
  unfold OnMidiIn. cbv zeta.
  repeat first
    [ apply flag_blind_HandleNoteOn | apply flag_blind_HandleNoteOff
    | apply flag_blind_HandleControlChange
    | apply flag_blind_HandleProgramChange
    | apply flag_blind_bind; [| intros ? ]
    | apply flag_blind_if
    | solve [ auto with flag_blind ] ].
Qed.

Lemma flag_blind_OnDeinit : flag_blind OnDeinit.
Proof. unfold OnDeinit. blind. Qed.

End FlagBlind.

(** Delivering a sequence of frames is flag-blind as well. *)
Lemma deliver_flag_blind (events : list Event) (surf : Surface) :
  forall (hist : list ExtCall) (s : AutomationState) (b : bool),
    let h := deliver events surf hist s in
    let h' := deliver events surf hist (automation_enabled_set b s) in
    (exists b', h_final h' = automation_enabled_set b' (h_final h))
    /\ h_issued h' = h_issued h
    /\ h_logged h' = h_logged h
    /\ h_completions h' = h_completions h.
Proof.
  induction events as [| event rest IH]; intros hist s b;
    cbn [deliver h_final h_issued h_logged h_completions].
  - split; [now exists b | auto].
  - destruct (flag_blind_OnMidiIn event surf hist s b)
      as ((b' & Hf) & Hi & Hl & Hc).
    rewrite Hf, Hi, Hl, Hc.
    destruct (IH (extend hist (issued (OnMidiIn event surf hist s)))
                 (final (OnMidiIn event surf hist s)) b')
      as (Hf' & Hi' & Hl' & Hc').
    rewrite Hi', Hl', Hc'. auto.
Qed.

(** Who writes the flag: no note handler, no program change, and no
    control change other than controller 64. *)
Lemma HandleNoteOn_keeps_flag
  (surf : Surface) (hist : list ExtCall) (s : AutomationState)
  (note velocity : Z) :
  automation_enabled (final (HandleNoteOn note velocity surf hist s))
  = automation_enabled s.
Proof. unfold HandleNoteOn; unfold_m. repeat branch; reflexivity. Qed.

Lemma HandleNoteOff_keeps_flag
  (surf : Surface) (hist : list ExtCall) (s : AutomationState) (note : Z) :
  automation_enabled (final (HandleNoteOff note surf hist s))
  = automation_enabled s.
Proof. unfold HandleNoteOff; unfold_m. repeat branch; reflexivity. Qed.

Lemma HandleProgramChange_keeps_flag
  (surf : Surface) (hist : list ExtCall) (s : AutomationState) (program : Z) :
  automation_enabled (final (HandleProgramChange program surf hist s))
  = automation_enabled s.
Proof. unfold HandleProgramChange; unfold_m. repeat branch; reflexivity. Qed.

Lemma HandleControlChange_keeps_flag
  (surf : Surface) (hist : list ExtCall) (s : AutomationState)
  (cc_number cc_value : Z) :
  cc_number <> 64 ->
  automation_enabled (final (HandleControlChange cc_number cc_value surf hist s))
  = automation_enabled s.
Proof.
  intros Hne. apply Z.eqb_neq in Hne.
  unfold HandleControlChange. rewrite Hne. unfold_m.
  repeat branch; reflexivity.
Qed.

(** C10: [automation_enabled] is write-only.  Two deliveries of the same
    frames to the same host from states that differ in the flag alone
    issue the same calls with the same outcomes, complete alike, log the
    same lines and end with the same value in every other field; a frame
    other than a control change for controller 64 leaves the flag as it
    was, and so does [OnDeinit]. *)
Theorem automation_enabled_is_write_only
  (events : list Event) (event : Event)
  (surf : Surface) (hist : list ExtCall) (s : AutomationState) (b : bool) :
  let h := deliver events surf hist s in
  let h' := deliver events surf hist (automation_enabled_set b s) in
  h_issued h' = h_issued h
  /\ h_completions h' = h_completions h
  /\ h_logged h' = h_logged h
  /\ last_mixer_values (h_final h') = last_mixer_values (h_final h)
  /\ last_channel_values (h_final h') = last_channel_values (h_final h)
  /\ recording_enabled (h_final h') = recording_enabled (h_final h)
  /\ tempo_last (h_final h') = tempo_last (h_final h)
  /\ active_patterns (h_final h') = active_patterns (h_final h)
  /\ (~ (status event = 0xB0 /\ data1 event = 64) ->
      automation_enabled (final (OnMidiIn event surf hist s))
      = automation_enabled s)
  /\ automation_enabled (final (OnDeinit surf hist s)) = automation_enabled s.
Proof.
  intros h h'.
  destruct (deliver_flag_blind events surf hist s b)
    as ((b' & Hf) & Hi & Hl & Hc).
  fold h in Hf, Hi, Hl, Hc. fold h' in Hf, Hi, Hl, Hc.
  repeat (split; [first [assumption | now rewrite Hf] |]).
  split; [| reflexivity].
  intros Hnot. rewrite OnMidiIn_run. cbv zeta. cbn [final].
  destruct event as [st d1 d2]. unfold classify. cbn [status data1 data2] in *.
  destruct (Z.eqb_spec st 0x90) as [-> | H90];
    [destruct (d2 >? 0); cbn;
     [apply HandleNoteOn_keeps_flag | apply HandleNoteOff_keeps_flag] |].
  destruct (Z.eqb_spec st 0x80) as [-> | H80];
    [cbn; apply HandleNoteOff_keeps_flag |].
  destruct (Z.eqb_spec st 0xB0) as [-> | HB0].
  - cbn. apply HandleControlChange_keeps_flag. intros ->. now apply Hnot.
  - destruct (Z.eqb_spec st 0xC0) as [-> | HC0]; cbn;
      [apply HandleProgramChange_keeps_flag | reflexivity].
Qed.

(** With the flag cleared beforehand, a refused master-volume change, a
    pattern note and a tempo change on a host that accepts them. *)
Lemma automation_enabled_is_write_only_at_three_frames :
  let events := [mkEvent 0xB0 1 100; mkEvent 0x90 36 100; mkEvent 0xB0 4 64] in
  let surf := surface_ok 16 16 0 in
  ~ (status (mkEvent 0x90 36 100) = 0xB0 /\ data1 (mkEvent 0x90 36 100) = 64)
  /\ h_issued (deliver events surf [] (automation_enabled_set false init_state))
     = h_issued (deliver events surf [] init_state)
  /\ automation_enabled
       (final (OnMidiIn (mkEvent 0x90 36 100) surf [] init_state))
     = automation_enabled init_state.
Proof.
  intros events surf.
  assert (Hnot : ~ (status (mkEvent 0x90 36 100) = 0xB0
                    /\ data1 (mkEvent 0x90 36 100) = 64))
    by (intros [H _]; discriminate H).
  destruct (automation_enabled_is_write_only
              events (mkEvent 0x90 36 100) surf [] init_state false)
    as (Hi & _ & _ & _ & _ & _ & _ & _ & Hkeep & _).
  split; [exact Hnot |]. split; [exact Hi | exact (Hkeep Hnot)].
Defined.

(** * Further properties of the handlers *)

(** A case split that keeps the equation of the test or of the answer. *)
Ltac branch_eqn :=
  match goal with
  | |- context [match ?surf ?h ?c with Returns _ => _ | Raises _ => _ end] =>
      let E := fresh "Hhost" in
      destruct (surf h c) as [? | []] eqn:E; simpl
  | |- context [if ?b then _ else _] =>
      match type of b with
      | bool => let E := fresh "Htest" in destruct b eqn:E; simpl
      end
  end.

(** Turns the tests of the source, once decided, into propositions. *)
Ltac tests_to_props :=
  repeat match goal with
    | H : (_ && _) = true |- _ => apply andb_true_iff in H; destruct H
    | H : (_ && _) = false |- _ => apply andb_false_iff in H
    | H : (_ =? _) = true |- _ => apply Z.eqb_eq in H
    | H : (_ =? _) = false |- _ => apply Z.eqb_neq in H
    | H : (_ <=? _) = true |- _ => apply Z.leb_le in H
    | H : (_ <=? _) = false |- _ => apply Z.leb_gt in H
    | H : (_ <? _) = true |- _ => apply Z.ltb_lt in H
    | H : (_ <? _) = false |- _ => apply Z.ltb_ge in H
    | H : (_ >=? _) = true |- _ => apply Z.geb_le in H
    | H : (_ >? _) = true |- _ => apply Z.gtb_lt in H
    end.

(** ** What a frame can do to the state *)

Lemma HandleNoteOn_final_cases
  (surf : Surface) (hist : list ExtCall) (s : AutomationState)
  (note velocity : Z) :
  let r := HandleNoteOn note velocity surf hist s in
  final r = s
  \/ (PATTERN_NOTE_START <= note <= PATTERN_NOTE_END
      /\ final r = active_patterns_add (note - PATTERN_NOTE_START) s).
Proof.
  unfold HandleNoteOn; unfold_m.
  repeat branch_eqn; tests_to_props; auto.
Qed.

Lemma HandleNoteOff_final_cases
  (surf : Surface) (hist : list ExtCall) (s : AutomationState) (note : Z) :
  let r := HandleNoteOff note surf hist s in
  issued r = [] /\ completion r = Normal tt
  /\ (final r = s
      \/ (PATTERN_NOTE_START <= note <= PATTERN_NOTE_END
          /\ final r = active_patterns_discard (note - PATTERN_NOTE_START) s)).
Proof.
  unfold HandleNoteOff; unfold_m.
  repeat branch_eqn; tests_to_props; intuition auto.
Qed.

Lemma HandleControlChange_final_cases
  (surf : Surface) (hist : list ExtCall) (s : AutomationState)
  (cc_number cc_value : Z) :
  let r := HandleControlChange cc_number cc_value surf hist s in
  final r = s
  \/ ((cc_number = MIDI_CC_MASTER_VOLUME \/ cc_number = MIDI_CC_TRACK_VOLUME
       \/ cc_number = 7)
      /\ exists track, 0 <= track
         /\ final r = last_mixer_values_set track (div127 cc_value) s)
  \/ (cc_number = MIDI_CC_TEMPO
      /\ final r = tempo_last_set (tempo_hint cc_value) s)
  \/ (cc_number = 64
      /\ final r = automation_enabled_set (cc_value >=? 64) s).
Proof.
  unfold HandleControlChange; unfold_m. rewrite ?tempo_expression.
  repeat branch_eqn; tests_to_props; auto;
    right; left; (split; [auto |]); eexists; (split; [| reflexivity]); lia.
Qed.

Lemma HandleProgramChange_final
  (surf : Surface) (hist : list ExtCall) (s : AutomationState) (program : Z) :
  final (HandleProgramChange program surf hist s) = s.
Proof.
  unfold HandleProgramChange; unfold_m. repeat branch_eqn; reflexivity.
Qed.

(** The assignment a frame makes, by kind of frame. *)
Lemma OnMidiIn_final_cases
  (event : Event) (surf : Surface) (hist : list ExtCall)
  (s : AutomationState) :
  let r := OnMidiIn event surf hist s in
  let note := data1 event in
  let value := data2 event in
  final r = s
  \/ (status event = 0x90 /\ value > 0
      /\ PATTERN_NOTE_START <= note <= PATTERN_NOTE_END
      /\ final r = active_patterns_add (note - PATTERN_NOTE_START) s)
  \/ (is_note_off_frame event
      /\ PATTERN_NOTE_START <= note <= PATTERN_NOTE_END
      /\ final r = active_patterns_discard (note - PATTERN_NOTE_START) s)
  \/ (status event = 0xB0
      /\ (data1 event = MIDI_CC_MASTER_VOLUME
          \/ data1 event = MIDI_CC_TRACK_VOLUME \/ data1 event = 7)
      /\ exists track, 0 <= track
         /\ final r = last_mixer_values_set track (div127 value) s)
  \/ (status event = 0xB0 /\ data1 event = MIDI_CC_TEMPO
      /\ final r = tempo_last_set (tempo_hint value) s)
  \/ (status event = 0xB0 /\ data1 event = 64
      /\ final r = automation_enabled_set (value >=? 64) s).
Proof.
  intros r note value. subst r note value. rewrite OnMidiIn_run.
  destruct event as [st d1 d2]. unfold classify, is_note_off_frame.
  cbn [status data1 data2 final].
  destruct (Z.eqb_spec st 0x90) as [-> | H90].
  - cbn. destruct (d2 >? 0) eqn:Hvel; cbn.
    + apply Z.gtb_lt in Hvel.
      destruct (HandleNoteOn_final_cases surf hist s d1 d2) as [H | [Hr H]];
        [now left | right; left]. repeat split; try assumption; lia.
    + assert (d2 <= 0) by (destruct (Z.gtb_spec d2 0); [discriminate | lia]).
      destruct (HandleNoteOff_final_cases surf hist s d1)
        as (_ & _ & [H' | [Hr H']]); [now left | right; right; left].
      split; [now right | split; assumption].
  - destruct (Z.eqb_spec st 0x80) as [-> | H80]; cbn.
    + destruct (HandleNoteOff_final_cases surf hist s d1)
        as (_ & _ & [H' | [Hr H']]); [now left | right; right; left].
      split; [now left | split; assumption].
    + destruct (Z.eqb_spec st 0xB0) as [-> | HB0]; cbn.
      * destruct (HandleControlChange_final_cases surf hist s d1 d2)
          as [H | [[Hc H] | [[Hc H] | [Hc H]]]]; [now left | | |].
        -- right; right; right; left. auto.
        -- right; right; right; right; left. auto.
        -- right; right; right; right; right. auto.
      * destruct (Z.eqb_spec st 0xC0) as [-> | HC0]; cbn;
          [left; apply HandleProgramChange_final | now left].
Qed.

(** X1: a frame makes at most one assignment to the state, and which one
    is fixed by the kind of frame: a note-on with velocity in the pattern
    range adds its pattern, a note-off frame in the pattern range discards
    it, controllers 1, 2 and 7 cache [data2/127.0] for a track that is not
    negative, controller 4 stores the tempo, controller 64 stores the
    flag; every other frame, and every frame whose host call fails, leaves
    the state as it was. *)
Theorem frame_makes_at_most_one_assignment
  (event : Event) (surf : Surface) (hist : list ExtCall)
  (s : AutomationState) :
  let r := OnMidiIn event surf hist s in
  let note := data1 event in
  let value := data2 event in
  final r = s
  \/ (status event = 0x90 /\ value > 0
      /\ PATTERN_NOTE_START <= note <= PATTERN_NOTE_END
      /\ final r = active_patterns_add (note - PATTERN_NOTE_START) s)
  \/ (is_note_off_frame event
      /\ PATTERN_NOTE_START <= note <= PATTERN_NOTE_END
      /\ final r = active_patterns_discard (note - PATTERN_NOTE_START) s)
  \/ (status event = 0xB0
      /\ (data1 event = MIDI_CC_MASTER_VOLUME
          \/ data1 event = MIDI_CC_TRACK_VOLUME \/ data1 event = 7)
      /\ exists track, 0 <= track
         /\ final r = last_mixer_values_set track (div127 value) s)
  \/ (status event = 0xB0 /\ data1 event = MIDI_CC_TEMPO
      /\ final r = tempo_last_set (tempo_hint value) s)
  \/ (status event = 0xB0 /\ data1 event = 64
      /\ final r = automation_enabled_set (value >=? 64) s).
Proof. apply OnMidiIn_final_cases. Qed.

(** ** Invariants of the state *)

(** What every frame of a kind preserves, every delivery of such frames
    preserves. *)
Lemma deliver_preserves
  (P : AutomationState -> Prop) (allowed : Event -> Prop) :
  (forall event surf hist s,
      allowed event -> P s -> P (final (OnMidiIn event surf hist s))) ->
  forall events surf hist s,
    Forall allowed events -> P s -> P (h_final (deliver events surf hist s)).
Proof.
  intros Hstep events surf.
  induction events as [| event rest IH]; intros hist s Hall Hs;
    cbn [deliver h_final]; [exact Hs |].
  inversion Hall as [| ? ? Hevent Hrest]; subst.
  apply IH; [exact Hrest |]. now apply Hstep.
Qed.

Lemma OnMidiIn_patterns_in_bank
  (event : Event) (surf : Surface) (hist : list ExtCall)
  (s : AutomationState) :
  patterns_in_bank s -> patterns_in_bank (final (OnMidiIn event surf hist s)).
Proof.
  intros Hs.
  destruct (OnMidiIn_final_cases event surf hist s)
    as [H | [(_ & _ & Hr & H) | [(_ & Hr & H) | [(_ & _ & t & _ & H)
       | [(_ & _ & H) | (_ & _ & H)]]]]];
    rewrite H; try exact Hs; intros i Hi; cbn in Hi.
  - apply elem_of_union in Hi as [Hi | Hi]; [| now apply Hs].
    apply elem_of_singleton in Hi. subst i. lia.
  - apply elem_of_difference in Hi as [Hi _]. now apply Hs.
Qed.

(** X2: the active patterns never leave the pattern bank: from a state
    whose active patterns all lie in 0..15, any frames whatever (well
    formed or not), on any host, leave active patterns in 0..15. *)
Theorem active_patterns_stay_in_bank
  (events : list Event) (surf : Surface) (hist : list ExtCall)
  (s : AutomationState) :
  patterns_in_bank s ->
  patterns_in_bank (h_final (deliver events surf hist s))
  /\ forall i, i ∈ active_patterns (h_final (deliver events surf hist s)) ->
               0 <= i <= 15.
Proof.
  intros Hs.
  assert (H : patterns_in_bank (h_final (deliver events surf hist s))).
  { apply (deliver_preserves patterns_in_bank (fun _ => True)).
    - intros event surf' hist' s' _. apply OnMidiIn_patterns_in_bank.
    - apply Forall_forall. auto.
    - exact Hs. }
  split; [exact H |]. intros i Hi. apply H in Hi.
  unfold PATTERN_NOTE_END, PATTERN_NOTE_START in Hi. lia.
Qed.

(** From the initial state, with pattern notes held on a host that is
    down. *)
Lemma active_patterns_stay_in_bank_from_init :
  patterns_in_bank init_state
  /\ patterns_in_bank
       (h_final (deliver [mkEvent 0x90 36 100; mkEvent 0x90 51 1;
                          mkEvent 0x90 52 1]
                         surface_down [] init_state)).
Proof.
  assert (H : patterns_in_bank init_state).
  { intros i Hi. cbn in Hi. now apply not_elem_of_empty in Hi. }
  split; [exact H |].
  apply (active_patterns_stay_in_bank _ surface_down [] init_state H).
Defined.

Lemma div127_in_range (v : Z) :
  0 <= v <= 127 -> in_range 0 1 (div127 v) = true.
Proof.
  apply (seven_bit_cases (fun v => in_range 0 1 (div127 v))).
  vm_compute. reflexivity.
Qed.

Lemma tempo_hint_in_range (v : Z) :
  0 <= v <= 127 -> in_range 20 300 (tempo_hint v) = true.
Proof.
  apply (seven_bit_cases (fun v => in_range 20 300 (tempo_hint v))).
  vm_compute. reflexivity.
Qed.

Lemma OnMidiIn_ranges
  (event : Event) (surf : Surface) (hist : list ExtCall)
  (s : AutomationState) :
  well_formed event ->
  mixer_cache_in_range s /\ tempo_in_range s ->
  mixer_cache_in_range (final (OnMidiIn event surf hist s))
  /\ tempo_in_range (final (OnMidiIn event surf hist s)).
Proof.
  intros (_ & _ & Hv) [Hm Ht].
  destruct (OnMidiIn_final_cases event surf hist s)
    as [H | [(_ & _ & _ & H) | [(_ & _ & H) | [(_ & _ & t & Ht0 & H)
       | [(_ & _ & H) | (_ & _ & H)]]]]];
    rewrite H; try (split; assumption).
  - split; [| exact Ht]. unfold mixer_cache_in_range; cbn.
    apply map_Forall_insert_2; [| exact Hm].
    split; [exact Ht0 | now apply div127_in_range].
  - split; [exact Hm |]. unfold tempo_in_range; cbn.
    now apply tempo_hint_in_range.
Qed.

(** X3: for well-formed frames the documented ranges are an invariant of
    the state: if every cached mixer value is in [0.0, 1.0] under a track
    index that is not negative, and the last tempo is the initial 120 or
    lies in [20, 300], the same holds after any sequence of well-formed
    frames on any host. *)
Theorem ranges_are_invariant_for_well_formed_frames
  (events : list Event) (surf : Surface) (hist : list ExtCall)
  (s : AutomationState) :
  Forall well_formed events ->
  mixer_cache_in_range s -> tempo_in_range s ->
  mixer_cache_in_range (h_final (deliver events surf hist s))
  /\ tempo_in_range (h_final (deliver events surf hist s)).
Proof.
  intros Hall Hm Ht.
  apply (deliver_preserves
           (fun s => mixer_cache_in_range s /\ tempo_in_range s) well_formed);
    [| exact Hall | now split].
  intros event surf' hist' s'. apply OnMidiIn_ranges.
Qed.

(** From the initial state: a master volume, a selected-track volume and a
    tempo change on a host with track 3 selected. *)
Lemma ranges_are_invariant_from_init :
  let events := [mkEvent 0xB0 1 127; mkEvent 0xB0 7 0; mkEvent 0xB0 4 64] in
  Forall well_formed events
  /\ mixer_cache_in_range init_state
  /\ tempo_in_range init_state
  /\ mixer_cache_in_range
       (h_final (deliver events (surface_ok 16 16 3) [] init_state))
  /\ tempo_in_range
       (h_final (deliver events (surface_ok 16 16 3) [] init_state)).
Proof.
  intros events.
  assert (H1 : Forall well_formed events)
    by (repeat constructor; cbn; lia).
  assert (H2 : mixer_cache_in_range init_state) by apply map_Forall_empty.
  assert (H3 : tempo_in_range init_state) by reflexivity.
  split; [exact H1 |]. split; [exact H2 |]. split; [exact H3 |].
  apply (ranges_are_invariant_for_well_formed_frames
           events (surface_ok 16 16 3) [] init_state H1 H2 H3).
Defined.

Lemma OnMidiIn_never_written
  (event : Event) (surf : Surface) (hist : list ExtCall)
  (s : AutomationState) :
  let s' := final (OnMidiIn event surf hist s) in
  recording_enabled s' = recording_enabled s
  /\ last_channel_values s' = last_channel_values s
  /\ dom (last_mixer_values s) ⊆ dom (last_mixer_values s').
Proof.
  destruct (OnMidiIn_final_cases event surf hist s)
    as [H | [(_ & _ & _ & H) | [(_ & _ & H) | [(_ & _ & t & Ht0 & H)
       | [(_ & _ & H) | (_ & _ & H)]]]]];
    cbv zeta; rewrite H; cbn; repeat split; try reflexivity.
  rewrite dom_insert_L. apply union_subseteq_r.
Qed.

(** X4: what no frame ever does.  Whatever frames are delivered, on any
    host, [recording_enabled] and [last_channel_values] keep the value
    they had (the record note and the channel-volume notes included), and
    no track that is in the mixer cache is ever dropped from it. *)
Theorem frames_never_touch_recording_or_channel_cache
  (events : list Event) (surf : Surface) (hist : list ExtCall)
  (s : AutomationState) :
  let s' := h_final (deliver events surf hist s) in
  recording_enabled s' = recording_enabled s
  /\ last_channel_values s' = last_channel_values s
  /\ dom (last_mixer_values s) ⊆ dom (last_mixer_values s').
Proof.
  apply (deliver_preserves
           (fun s' => recording_enabled s' = recording_enabled s
                      /\ last_channel_values s' = last_channel_values s
                      /\ dom (last_mixer_values s)
                           ⊆ dom (last_mixer_values s'))
           (fun _ => True)).
  - intros event surf' hist' s' _ (Hr & Hc & Hd).
    destruct (OnMidiIn_never_written event surf' hist' s') as (Hr' & Hc' & Hd').
    split; [congruence |]. split; [congruence |].
    etransitivity; eassumption.
  - apply Forall_forall. auto.
  - repeat split; reflexivity.
Qed.

(** ** Frames that cannot raise *)

(** Closes the cases in which the host would have raised something other
    than an ordinary exception. *)
Ltac not_BaseException Hsafe :=
  match goal with
  | H : _ = Raises Py.BaseException |- _ =>
      apply Hsafe in H; discriminate H
  end.

Lemma HandleControlChange_returns
  (surf : Surface) (hist : list ExtCall) (s : AutomationState)
  (cc_number cc_value : Z) :
  raises_only_Exception surf ->
  completion (HandleControlChange cc_number cc_value surf hist s) = Normal tt.
Proof.
  intros Hsafe. unfold HandleControlChange; unfold_m.
  repeat branch_eqn; try reflexivity; not_BaseException Hsafe.
Qed.

Lemma HandleProgramChange_returns
  (surf : Surface) (hist : list ExtCall) (s : AutomationState) (program : Z) :
  raises_only_Exception surf ->
  completion (HandleProgramChange program surf hist s) = Normal tt.
Proof.
  intros Hsafe. unfold HandleProgramChange; unfold_m.
  repeat branch_eqn; try reflexivity; not_BaseException Hsafe.
Qed.

Lemma HandleNoteOn_returns
  (surf : Surface) (hist : list ExtCall) (s : AutomationState)
  (note velocity : Z) :
  note <> MIDI_NOTE_PLAY -> note <> MIDI_NOTE_STOP ->
  note <> MIDI_NOTE_RECORD -> ~ 64 <= note <= 79 ->
  completion (HandleNoteOn note velocity surf hist s) = Normal tt.
Proof.
  intros Hplay Hstop Hrecord Hchannel. unfold HandleNoteOn; unfold_m.
  repeat branch_eqn; try reflexivity; tests_to_props;
    try contradiction; lia.
Qed.

Lemma OnMidiIn_returns
  (event : Event) (surf : Surface) (hist : list ExtCall)
  (s : AutomationState) :
  raises_only_Exception surf -> ~ is_unguarded_note_on event ->
  completion (OnMidiIn event surf hist s) = Normal tt.
Proof.
  intros Hsafe Hguarded. rewrite OnMidiIn_run. cbn [completion].
  destruct event as [st d1 d2]. unfold classify, is_unguarded_note_on in *.
  cbn [status data1 data2] in *.
  destruct (Z.eqb_spec st 0x90) as [-> | H90].
  - cbn. destruct (d2 >? 0) eqn:Hvel; cbn.
    + apply Z.gtb_lt in Hvel.
      apply HandleNoteOn_returns; intros H; apply Hguarded;
        (split; [reflexivity |]); (split; [lia |]); auto.
    + apply (HandleNoteOff_final_cases surf hist s d1).
  - destruct (Z.eqb_spec st 0x80) as [-> | H80]; cbn.
    + apply (HandleNoteOff_final_cases surf hist s d1).
    + destruct (Z.eqb_spec st 0xB0) as [-> | HB0]; cbn.
      * now apply HandleControlChange_returns.
      * destruct (Z.eqb_spec st 0xC0) as [-> | HC0]; cbn;
          [now apply HandleProgramChange_returns | reflexivity].
Qed.

(** X5: on a host whose failures are ordinary exceptions, every frame
    except a note-on for a transport note (60, 61, 62) or a channel-volume
    note (64..79) returns to the host: control changes, program changes,
    note-offs, pattern notes and unknown frames never raise out of
    [OnMidiIn], and a whole delivery of such frames completes normally
    frame by frame. *)
Theorem guarded_frames_never_raise
  (events : list Event) (surf : Surface) (hist : list ExtCall)
  (s : AutomationState) :
  raises_only_Exception surf ->
  Forall (fun event => ~ is_unguarded_note_on event) events ->
  Forall (fun c => c = Normal tt)
         (h_completions (deliver events surf hist s)).
Proof.
  intros Hsafe. revert hist s.
  induction events as [| event rest IH]; intros hist s Hall;
    cbn [deliver h_completions]; [constructor |].
  inversion Hall as [| ? ? Hevent Hrest]; subst.
  constructor; [now apply OnMidiIn_returns | now apply IH].
Qed.

(** A volume change, a pattern note and a program change on a host that
    is down. *)
Lemma guarded_frames_never_raise_on_host_down :
  let events := [mkEvent 0xB0 1 100; mkEvent 0x90 36 100; mkEvent 0xC0 5 0] in
  raises_only_Exception surface_down
  /\ Forall (fun event => ~ is_unguarded_note_on event) events
  /\ Forall (fun c => c = Normal tt)
            (h_completions (deliver events surface_down [] init_state)).
Proof.
  intros events.
  assert (H1 : raises_only_Exception surface_down).
  { intros hist c e H. unfold surface_down in H. now inversion H. }
  assert (H2 : Forall (fun event => ~ is_unguarded_note_on event) events).
  { unfold is_unguarded_note_on, MIDI_NOTE_PLAY, MIDI_NOTE_STOP,
      MIDI_NOTE_RECORD.
    repeat constructor; cbn; lia. }
  pose proof (guarded_frames_never_raise events surface_down [] init_state
                H1 H2) as H.
  split; [exact H1 |]. split; [exact H2 | exact H].
Defined.

(** ** Note-offs and unmapped frames *)

Lemma classify_note_off_frame (event : Event) :
  is_note_off_frame event -> classify event = NoteOff (data1 event).
Proof.
  destruct event as [st d1 d2]. unfold is_note_off_frame, classify.
  cbn [status data1 data2]. intros [-> | [-> Hvel]]; [reflexivity |].
  cbn. destruct (Z.gtb_spec d2 0); [lia | reflexivity].
Qed.

(** X6: a note-off frame (status [0x80], or status [0x90] with velocity 0)
    never calls the host and never raises, whatever its note: in
    particular a velocity-0 note-on for a transport note does not start or
    stop the transport.  It changes the state only by discarding its own
    pattern: every other pattern is active afterwards exactly when it was
    before, and every other field keeps its value. *)
Theorem note_off_frames_are_silent
  (event : Event) (surf : Surface) (hist : list ExtCall)
  (s : AutomationState) :
  is_note_off_frame event ->
  let r := OnMidiIn event surf hist s in
  let pattern_index := data1 event - PATTERN_NOTE_START in
  issued r = []
  /\ completion r = Normal tt
  /\ logged r = [LMidiIn (status event) (data1 event) (data2 event);
                 LNoteOff (data1 event)]
  /\ (final r = s \/ final r = active_patterns_discard pattern_index s)
  /\ (forall i, i <> pattern_index ->
                i ∈ active_patterns (final r) <-> i ∈ active_patterns s).
Proof.
  intros Hoff r pattern_index. subst r. rewrite OnMidiIn_run.
  rewrite (classify_note_off_frame event Hoff).
  cbn [dispatch final issued logged completion].
  destruct (HandleNoteOff_final_cases surf hist s (data1 event))
    as (Hi & Hc & Hf).
  assert (Hl : logged (HandleNoteOff (data1 event) surf hist s)
               = [LNoteOff (data1 event)]).
  { unfold HandleNoteOff; unfold_m. now repeat branch. }
  rewrite Hi, Hc, Hl. repeat split; try reflexivity.
  - destruct Hf as [Hf | [_ Hf]]; auto.
  - destruct Hf as [Hf | [_ Hf]]; rewrite Hf; [auto |].
    cbn. intros Hin. apply elem_of_difference in Hin. tauto.
  - destruct Hf as [Hf | [_ Hf]]; rewrite Hf; [auto |].
    cbn. intros Hin. apply elem_of_difference. split; [exact Hin |].
    intros Heq. apply elem_of_singleton in Heq. contradiction.
Qed.

(** A velocity-0 note-on for the play note. *)
Lemma note_off_frames_are_silent_at_play_note :
  is_note_off_frame (mkEvent 0x90 60 0)
  /\ issued (OnMidiIn (mkEvent 0x90 60 0) (surface_ok 16 16 0) [] init_state)
     = [].
Proof.
  assert (H : is_note_off_frame (mkEvent 0x90 60 0))
    by (right; cbn; lia).
  split; [exact H |].
  apply (note_off_frames_are_silent
           (mkEvent 0x90 60 0) (surface_ok 16 16 0) [] init_state H).
Defined.

(** X7: frames outside the mapping are inert.  A control change for a
    controller other than 1, 2, 3, 4, 7, 10 and 64, and a note-on for a
    note outside the transport notes, the pattern range and the
    channel-volume range, make no call, leave the state as it was and
    return. *)
Theorem unmapped_frames_are_inert
  (number value : Z) (surf : Surface) (hist : list ExtCall)
  (s : AutomationState) :
  (~ In number [MIDI_CC_MASTER_VOLUME; MIDI_CC_TRACK_VOLUME; MIDI_CC_PAN;
                MIDI_CC_TEMPO; 7; 10; 64] ->
   OnMidiIn (mkEvent 0xB0 number value) surf hist s
   = mkRun s [] [LMidiIn 0xB0 number value; LCC number value (div127 value)]
           (Normal tt))
  /\ (value > 0 ->
      ~ In number [MIDI_NOTE_PLAY; MIDI_NOTE_STOP; MIDI_NOTE_RECORD] ->
      ~ PATTERN_NOTE_START <= number <= PATTERN_NOTE_END ->
      ~ 64 <= number <= 79 ->
      OnMidiIn (mkEvent 0x90 number value) surf hist s
      = mkRun s [] [LMidiIn 0x90 number value; LNoteOn number value]
              (Normal tt)).
Proof.
  split.
  - intros Hnot. rewrite OnMidiIn_run. cbn.
    unfold HandleControlChange; unfold_m.
    repeat branch_eqn; tests_to_props; try reflexivity;
      exfalso; apply Hnot; subst; cbn; tauto.
  - intros Hvel Hnot Hpattern Hchannel. rewrite OnMidiIn_run.
    rewrite (classify_note_on number value) by lia. cbn.
    unfold HandleNoteOn; unfold_m.
    repeat branch_eqn; tests_to_props; try reflexivity;
      try (exfalso; apply Hnot; subst; cbn; tauto);
      exfalso; (apply Hpattern || apply Hchannel); lia.
Qed.

(** Controller 5 and note 100. *)
Lemma unmapped_frames_are_inert_at_5_and_100 :
  ~ In 5 [MIDI_CC_MASTER_VOLUME; MIDI_CC_TRACK_VOLUME; MIDI_CC_PAN;
          MIDI_CC_TEMPO; 7; 10; 64]
  /\ final (OnMidiIn (mkEvent 0xB0 5 100) surface_down [] init_state)
     = init_state.
Proof.
  assert (H : ~ In 5 [MIDI_CC_MASTER_VOLUME; MIDI_CC_TRACK_VOLUME;
                      MIDI_CC_PAN; MIDI_CC_TEMPO; 7; 10; 64]).
  { unfold MIDI_CC_MASTER_VOLUME, MIDI_CC_TRACK_VOLUME, MIDI_CC_PAN,
      MIDI_CC_TEMPO. cbn. intuition discriminate. }
  split; [exact H |].
  destruct (unmapped_frames_are_inert 5 100 surface_down [] init_state)
    as [Hcc _].
  now rewrite (Hcc H).
Defined.

(** ** Held patterns are a set *)

Lemma add_twice (i : Z) (s : AutomationState) :
  active_patterns_add i (active_patterns_add i s) = active_patterns_add i s.
Proof.
  unfold active_patterns_add; cbn. f_equal.
  rewrite (assoc_L (∪)). now rewrite union_idemp_L.
Qed.

Lemma OnMidiIn_pattern_note_on
  (surf : Surface) (hist : list ExtCall) (s : AutomationState)
  (note velocity : Z) :
  PATTERN_NOTE_START <= note <= PATTERN_NOTE_END -> 0 < velocity ->
  final (OnMidiIn (mkEvent 0x90 note velocity) surf hist s)
  = active_patterns_add (note - PATTERN_NOTE_START) s.
Proof.
  intros Hnote Hvel. rewrite OnMidiIn_run, (classify_note_on _ _ Hvel).
  apply HandleNoteOn_pattern, Hnote.
Qed.

Lemma OnMidiIn_pattern_note_off
  (surf : Surface) (hist : list ExtCall) (s : AutomationState)
  (note value : Z) :
  PATTERN_NOTE_START <= note <= PATTERN_NOTE_END ->
  final (OnMidiIn (mkEvent 0x80 note value) surf hist s)
  = active_patterns_discard (note - PATTERN_NOTE_START) s.
Proof.
  intros Hnote. rewrite OnMidiIn_run. cbn [final].
  change (classify (mkEvent 0x80 note value)) with (NoteOff note).
  cbn [dispatch]. now rewrite HandleNoteOff_pattern.
Qed.

(** X8: held patterns are not counted.  For a note of the pattern range, a
    second note-on changes nothing that the first one did not, and one
    note-off clears the pattern however many note-ons came before: after
    on, on, off the pattern is inactive and the active patterns are those
    of the start without it, on any host. *)
Theorem one_note_off_clears_repeated_note_ons
  (surf : Surface) (hist : list ExtCall) (s : AutomationState)
  (note v1 v2 : Z) :
  PATTERN_NOTE_START <= note <= PATTERN_NOTE_END -> 0 < v1 -> 0 < v2 ->
  let on1 := mkEvent 0x90 note v1 in
  let on2 := mkEvent 0x90 note v2 in
  let off := mkEvent 0x80 note 0 in
  let pattern_index := note - PATTERN_NOTE_START in
  h_final (deliver [on1; on2] surf hist s)
  = h_final (deliver [on1] surf hist s)
  /\ (pattern_index
      ∉ active_patterns (h_final (deliver [on1; on2; off] surf hist s)))
  /\ active_patterns (h_final (deliver [on1; on2; off] surf hist s))
     = active_patterns s ∖ {[ pattern_index ]}.
Proof.
  intros Hnote H1 H2 on1 on2 off pattern_index.
  subst on1 on2 off. cbn [deliver h_final].
  rewrite !(OnMidiIn_pattern_note_off _ _ _ note 0 Hnote).
  rewrite (OnMidiIn_pattern_note_on surf hist s note v1 Hnote H1).
  rewrite !(OnMidiIn_pattern_note_on _ _ _ note v2 Hnote H2).
  fold pattern_index. rewrite add_twice. split; [reflexivity |].
  cbn. split.
  - intros Hin. apply elem_of_difference in Hin as [_ Hin].
    apply Hin, elem_of_singleton. reflexivity.
  - apply set_eq. intros i. rewrite !elem_of_difference, elem_of_union,
      elem_of_singleton. tauto.
Qed.

(** Pattern 5 (note 41), already active at the start. *)
Lemma one_note_off_clears_repeated_note_ons_at_41 :
  PATTERN_NOTE_START <= 41 <= PATTERN_NOTE_END /\ 0 < 100 /\ 0 < 1
  /\ (5 ∉ active_patterns
            (h_final (deliver [mkEvent 0x90 41 100; mkEvent 0x90 41 1;
                               mkEvent 0x80 41 0]
                              surface_down []
                              (active_patterns_add 5 init_state)))).
Proof.
  assert (H : PATTERN_NOTE_START <= 41 <= PATTERN_NOTE_END)
    by (unfold PATTERN_NOTE_START, PATTERN_NOTE_END; lia).
  assert (H1 : 0 < 100) by lia.
  assert (H2 : 0 < 1) by lia.
  split; [exact H |]. split; [exact H1 |]. split; [exact H2 |].
  apply (one_note_off_clears_repeated_note_ons
           surface_down [] (active_patterns_add 5 init_state) 41 100 1
           H H1 H2).
Defined.

(** ** Pan *)

Lemma HandleControlChange_pan_selected
  (surf : Surface) (hist : list ExtCall) (s : AutomationState) (v track : Z) :
  surf hist SelectedTrack = Returns track -> 0 <= track ->
  issued (HandleControlChange MIDI_CC_PAN v surf hist s)
  = [(SelectedTrack, Returns track);
     (SetTrackPan track (pan_of v),
      surf (SelectedTrack :: hist) (SetTrackPan track (pan_of v)))].
Proof.
  intros Hsel Htrack. apply Z.geb_le in Htrack.
  unfold HandleControlChange; unfold_m. rewrite Hsel; simpl.
  rewrite Htrack; simpl. fold (pan_of v).
  destruct (surf (SelectedTrack :: hist) (SetTrackPan track (pan_of v)))
    as [x | []]; reflexivity.
Qed.

(** X9: the pan controllers.  Controller 10 makes the same calls and
    leaves the same state as controller 3; with a track selected the host
    is handed [v/127.0 - 0.5] for it, and the pan is never stored in the
    state, whatever the host does.  Over 0..127 the pan goes from -0.5 to
    0.5, strictly increasing, and no controller value gives the centre
    0.0 exactly. *)
Theorem pan_mapping
  (surf : Surface) (hist : list ExtCall) (s : AutomationState)
  (v w track : Z) :
  let r := HandleControlChange MIDI_CC_PAN v surf hist s in
  observable (HandleControlChange 10 v surf hist s) = observable r
  /\ final r = s
  /\ (surf hist SelectedTrack = Returns track -> 0 <= track ->
      issued r
      = [(SelectedTrack, Returns track);
         (SetTrackPan track (pan_of v),
          surf (SelectedTrack :: hist) (SetTrackPan track (pan_of v)))])
  /\ pan_of 0 = (-0.5)%float
  /\ pan_of 127 = 0.5%float
  /\ (0 <= v -> v < w -> w <= 127 -> (pan_of v <? pan_of w)%float = true)
  /\ (0 <= v <= 127 -> (pan_of v =? 0)%float = false).
Proof.
  intros r. subst r. split; [| split; [| split; [| split; [| split; [| split]]]]].
  - unfold HandleControlChange; unfold_m. repeat branch; reflexivity.
  - unfold HandleControlChange; unfold_m. repeat branch; reflexivity.
  - apply HandleControlChange_pan_selected.
  - reflexivity.
  - reflexivity.
  - apply strictly_increasing_on_seven_bit. vm_compute. reflexivity.
  - intros Hv.
    apply (seven_bit_cases (fun v => negb (pan_of v =? 0)%float)) in Hv;
      [| vm_compute; reflexivity].
    now apply negb_true_iff in Hv.
Qed.

(** At the two middle values with track 3 selected. *)
Lemma pan_mapping_at_63_64 :
  surface_ok 16 16 3 [] SelectedTrack = Returns 3 /\ 0 <= 3
  /\ (0 <= 63 /\ 63 < 64 /\ 64 <= 127)
  /\ (pan_of 63 <? pan_of 64)%float = true
  /\ (pan_of 63 =? 0)%float = false
  /\ issued (HandleControlChange MIDI_CC_PAN 63 (surface_ok 16 16 3) []
                                 init_state)
     = [(SelectedTrack, Returns 3); (SetTrackPan 3 (pan_of 63), Returns 0)].
Proof.
  destruct (pan_mapping (surface_ok 16 16 3) [] init_state 63 64 3)
    as (_ & _ & Hcall & _ & _ & Hlt & Hcentre).
  assert (H1 : surface_ok 16 16 3 [] SelectedTrack = Returns 3)
    by reflexivity.
  assert (H2 : 0 <= 3) by lia.
  split; [exact H1 |]. split; [exact H2 |]. split; [lia |].
  split; [apply Hlt; lia |]. split; [apply Hcentre; lia |].
  exact (Hcall H1 H2).
Defined.

(** ** No track selected *)

(** X10: when the host reports no selected track (a negative index), the
    selected-track controllers 2, 3, 7 and 10 ask for the selected track
    and do nothing else: no volume or pan call, no change of state, no
    error line, and the handler returns. *)
Theorem no_selected_track_means_no_action
  (surf : Surface) (hist : list ExtCall) (s : AutomationState)
  (cc_number v track : Z) :
  In cc_number [MIDI_CC_TRACK_VOLUME; MIDI_CC_PAN; 7; 10] ->
  surf hist SelectedTrack = Returns track -> track < 0 ->
  HandleControlChange cc_number v surf hist s
  = mkRun s [(SelectedTrack, Returns track)]
          [LCC cc_number v (div127 v)] (Normal tt).
Proof.
  intros Hcc Hsel Htrack.
  assert (Hguard : (track >=? 0) = false).
  { destruct (track >=? 0) eqn:E; [| reflexivity].
    apply Z.geb_le in E. lia. }
  cbn in Hcc. destruct Hcc as [<- | [<- | [<- | [<- | []]]]];
    unfold HandleControlChange; unfold_m; rewrite Hsel; simpl;
    rewrite Hguard; reflexivity.
Qed.

(** Controller 7 on a host that reports track -1. *)
Lemma no_selected_track_means_no_action_at_cc7 :
  In 7 [MIDI_CC_TRACK_VOLUME; MIDI_CC_PAN; 7; 10]
  /\ surface_ok 16 16 (-1) [] SelectedTrack = Returns (-1)
  /\ -1 < 0
  /\ final (HandleControlChange 7 100 (surface_ok 16 16 (-1)) [] init_state)
     = init_state.
Proof.
  assert (H1 : In 7 [MIDI_CC_TRACK_VOLUME; MIDI_CC_PAN; 7; 10])
    by (cbn; tauto).
  assert (H2 : surface_ok 16 16 (-1) [] SelectedTrack = Returns (-1))
    by reflexivity.
  assert (H3 : -1 < 0) by lia.
  split; [exact H1 |]. split; [exact H2 |]. split; [exact H3 |].
  now rewrite (no_selected_track_means_no_action
                 (surface_ok 16 16 (-1)) [] init_state 7 100 (-1) H1 H2 H3).
Defined.

(** ** What the host is asked *)

(** Checks the calls of one finished case of a handler. *)
Ltac check_calls :=
  repeat (apply List.Forall_cons || apply List.Forall_nil);
  unfold index_not_negative; cbn; try exact I; lia.

Lemma HandleNoteOn_indices
  (surf : Surface) (hist : list ExtCall) (s : AutomationState)
  (note velocity : Z) :
  Forall (fun c => index_not_negative (fst c))
         (issued (HandleNoteOn note velocity surf hist s)).
Proof.
  unfold HandleNoteOn; unfold_m. unfold PATTERN_NOTE_START.
  repeat branch_eqn; tests_to_props; check_calls.
Qed.

Lemma HandleControlChange_indices
  (surf : Surface) (hist : list ExtCall) (s : AutomationState)
  (cc_number cc_value : Z) :
  Forall (fun c => index_not_negative (fst c))
         (issued (HandleControlChange cc_number cc_value surf hist s)).
Proof.
  unfold HandleControlChange; unfold_m.
  repeat branch_eqn; tests_to_props; check_calls.
Qed.

Lemma HandleProgramChange_indices
  (surf : Surface) (hist : list ExtCall) (s : AutomationState) (program : Z) :
  0 <= program ->
  Forall (fun c => index_not_negative (fst c))
         (issued (HandleProgramChange program surf hist s)).
Proof.
  intros Hp. unfold HandleProgramChange; unfold_m.
  repeat branch_eqn; tests_to_props; check_calls.
Qed.

Lemma OnMidiIn_indices
  (event : Event) (surf : Surface) (hist : list ExtCall)
  (s : AutomationState) :
  well_formed event ->
  Forall (fun c => index_not_negative (fst c))
         (issued (OnMidiIn event surf hist s)).
Proof.
  intros (_ & [Hd1 _] & _). rewrite OnMidiIn_run. cbn [issued].
  destruct (classify event) eqn:E; cbn [dispatch].
  - apply HandleNoteOn_indices.
  - rewrite (proj1 (HandleNoteOff_final_cases surf hist s note)).
    constructor.
  - apply HandleControlChange_indices.
  - apply HandleProgramChange_indices.
    destruct event as [st d1 d2]. unfold classify in E.
    cbn [status data1 data2] in *.
    repeat match type of E with
           | (if ?b then _ else _) = _ => destruct b
           end; inversion E; subst; exact Hd1.
  - constructor.
Qed.

(** X11: no negative index reaches the host.  Whatever well-formed frames
    are delivered and whatever the host answers, every pattern, channel
    and track index handed to it (pattern selection, channel volume, track
    volume, track pan) is zero or more. *)
Theorem host_never_gets_negative_index
  (events : list Event) (surf : Surface) (hist : list ExtCall)
  (s : AutomationState) :
  Forall well_formed events ->
  Forall (fun c => index_not_negative (fst c))
         (h_issued (deliver events surf hist s)).
Proof.
  revert hist s.
  induction events as [| event rest IH]; intros hist s Hall;
    cbn [deliver h_issued]; [constructor |].
  inversion Hall as [| ? ? Hevent Hrest]; subst.
  apply Forall_app. split; [now apply OnMidiIn_indices | now apply IH].
Qed.

(** A program change, a channel-volume note and a selected-track volume
    on a host with track 3 selected. *)
Lemma host_never_gets_negative_index_at_three_frames :
  let events := [mkEvent 0xC0 0 0; mkEvent 0x90 64 1; mkEvent 0xB0 2 0] in
  Forall well_formed events
  /\ Forall (fun c => index_not_negative (fst c))
            (h_issued (deliver events (surface_ok 16 16 3) [] init_state)).
Proof.
  intros events.
  assert (H : Forall well_formed events)
    by (repeat constructor; cbn; lia).
  split; [exact H |].
  apply (host_never_gets_negative_index
           events (surface_ok 16 16 3) [] init_state H).
Defined.
